(** * HappyRef: citation formatting, note rendering and metadata rewriting

    A shallow embedding of the HappyRef Obsidian plugin (revision
    [main - Copy (3).ts], the one with eight citation styles and the
    change-citation-style command) together with the properties of its
    citation formatter, note renderer, collision-avoiding path loop,
    front-matter rewriter and citation-section replacement.

    Conventions of the embedding.
    - A JavaScript string is a [string]: a sequence of characters, one
      [ascii] per character.  Literals of the source that are not ASCII are
      kept as their UTF-8 bytes.
    - A JavaScript [number] held by a record (a year, a month, a day) is a
      [Z]; [0] is the only falsy one.
    - An optional property is an [option]; [None] is [undefined].
    - A function that can throw returns a [Result]. *)

From Stdlib Require Import String Ascii List ZArith Lia Bool DecimalString.
Import ListNotations.
Open Scope string_scope.

(** ** JavaScript primitives used by the plugin *)

Module Js.

(** The exceptions the modelled code can raise: the [TypeError] of a
    property read on [undefined], an [Error] built with [new Error(msg)],
    and whatever an external collaborator (YAML parser, HTTP fetch)
    raised. *)
Inductive Exn : Type :=
| TypeError (msg : string)
| Error (msg : string).

(** [e.message]. *)
Definition message (e : Exn) : string :=
  match e with
  | TypeError msg => msg
  | Error msg => msg
  end.

(** The message V8 gives to a read of index 0 on [undefined]. *)
Definition readOfUndefined : Exn :=
  TypeError "Cannot read properties of undefined (reading '0')".

Inductive Result (A : Type) : Type :=
| Ok (a : A)
| Throw (e : Exn).
Arguments Ok {A} a.
Arguments Throw {A} e.

Definition bind {A B : Type} (r : Result A) (k : A -> Result B) : Result B :=
  match r with
  | Ok a => k a
  | Throw e => Throw e
  end.

(** Line feed, tab and the double quote, which a literal cannot spell. *)
Definition nl : string := String "010"%char EmptyString.
Definition tab : string := String "009"%char EmptyString.
Definition dquote : string := String "034"%char EmptyString.

(** Truthiness of an optional string ([undefined] and [''] are falsy) and
    of an optional number ([undefined] and [0] are falsy). *)
Definition truthyStr (o : option string) : bool :=
  match o with
  | Some (String _ _) => true
  | _ => false
  end.

Definition truthyNum (o : option Z) : bool :=
  match o with
  | Some z => negb (Z.eqb z 0)
  | None => false
  end.

Definition isSome {A : Type} (o : option A) : bool :=
  match o with Some _ => true | None => false end.

(** [String(n)] for an integral number. *)
Definition numToString (z : Z) : string :=
  NilZero.string_of_int (Z.to_int z).

Definition natToString (n : nat) : string :=
  NilZero.string_of_uint (Nat.to_uint n).

(** [`${v}`] for an optional string and an optional number. *)
Definition tplStr (o : option string) : string :=
  match o with Some s => s | None => "undefined" end.

Definition tplNum (o : option Z) : string :=
  match o with Some z => numToString z | None => "undefined" end.

(** [s?.[0]] followed by interpolation: the first character of a present,
    non-empty string; [undefined] otherwise. *)
Definition firstChar (o : option string) : option string :=
  match o with
  | Some (String c _) => Some (String c EmptyString)
  | _ => None
  end.

(** [s.charAt(0)]. *)
Definition charAt0 (s : string) : string :=
  match s with
  | String c _ => String c EmptyString
  | EmptyString => EmptyString
  end.

(** [arr.join(sep)] on an array of strings. *)
Fixpoint join (sep : string) (l : list string) : string :=
  match l with
  | [] => ""
  | [x] => x
  | x :: rest => x ++ sep ++ join sep rest
  end.

(** [arr.map((x, index) => ...)]. *)
Fixpoint mapiFrom {A B : Type} (i : nat) (f : A -> nat -> B) (l : list A) : list B :=
  match l with
  | [] => []
  | x :: rest => f x i :: mapiFrom (S i) f rest
  end.

Definition mapi {A B : Type} (f : A -> nat -> B) (l : list A) : list B :=
  mapiFrom 0 f l.

(** [s.startsWith(pat)], returning what follows the prefix. *)
Fixpoint stripPrefix (pat s : string) : option string :=
  match pat with
  | EmptyString => Some s
  | String a pat' =>
      match s with
      | EmptyString => None
      | String b s' => if Ascii.eqb a b then stripPrefix pat' s' else None
      end
  end.

(** First occurrence of [pat] in [s] (as [indexOf] finds it): the text
    before it and the text after it. *)
Fixpoint splitAtFirst (pat s : string) : option (string * string) :=
  match stripPrefix pat s with
  | Some rest => Some (EmptyString, rest)
  | None =>
      match s with
      | EmptyString => None
      | String c s' =>
          match splitAtFirst pat s' with
          | Some (before, after) => Some (String c before, after)
          | None => None
          end
      end
  end.

(** [s.split(' ')]. *)
Fixpoint splitSpaceAcc (cur : string) (s : string) : list string :=
  match s with
  | EmptyString => [cur]
  | String c s' =>
      if Ascii.eqb c " " then cur :: splitSpaceAcc EmptyString s'
      else splitSpaceAcc (cur ++ String c EmptyString) s'
  end.

Definition splitSpace (s : string) : list string := splitSpaceAcc EmptyString s.

(** [s.replaceAll(pat, rep)] for a non-empty string pattern and a
    replacement without dollar patterns (all the plugin uses): occurrences
    are taken left to right and do not overlap.  [skip] counts the
    characters of the current occurrence still to be dropped. *)
Fixpoint replaceAllFrom (pat rep : string) (skip : nat) (s : string) : string :=
  match s with
  | EmptyString => EmptyString
  | String c s' =>
      match skip with
      | S k => replaceAllFrom pat rep k s'
      | O =>
          match stripPrefix pat s with
          | Some _ => rep ++ replaceAllFrom pat rep (String.length pat - 1) s'
          | None => String c (replaceAllFrom pat rep 0 s')
          end
      end
  end.

Definition replaceAll (pat rep : string) (s : string) : string :=
  replaceAllFrom pat rep 0 s.

(** [s.padStart(n, pad)]. *)
Fixpoint repeatTo (pad cur : string) (n : nat) : string :=
  match n with
  | O => EmptyString
  | S k =>
      match cur with
      | String c cur' => String c (repeatTo pad cur' k)
      | EmptyString =>
          match pad with
          | String c pad' => String c (repeatTo pad pad' k)
          | EmptyString => EmptyString
          end
      end
  end.

Definition padStart (n : nat) (pad : string) (s : string) : string :=
  if Nat.leb n (String.length s) then s
  else repeatTo pad pad (n - String.length s) ++ s.

Definition isDigit (c : ascii) : bool :=
  let n := nat_of_ascii c in Nat.leb 48 n && Nat.leb n 57.

Definition digitVal (c : ascii) : nat := nat_of_ascii c - 48.

(** [GetSubstitution] of ECMA-262: expansion of the dollar patterns of a
    replacement template.  [matched] is the matched text, [before] and
    [after] the text around it, [captures] the capture groups (all the
    groups of the plugin's expressions take part in every match).  There
    are no named groups, so [$<] stays literal. *)
Section Substitution.
Variables matched before after : string.
Variable captures : list string.

Definition capture (i : nat) : string := nth (i - 1) captures EmptyString.

Definition validIndex (i : nat) : bool :=
  Nat.leb 1 i && Nat.leb i (List.length captures).

Fixpoint getSubstitution (tpl : string) : string :=
  match tpl with
  | EmptyString => EmptyString
  | String c r =>
      if negb (Ascii.eqb c "$") then String c (getSubstitution r)
      else
        match r with
        | EmptyString => "$"
        | String d r1 =>
            if Ascii.eqb d "$" then "$" ++ getSubstitution r1
            else if Ascii.eqb d "&" then matched ++ getSubstitution r1
            else if Ascii.eqb d "`" then before ++ getSubstitution r1
            else if Ascii.eqb d "'" then after ++ getSubstitution r1
            else if isDigit d then
              let one :=
                if validIndex (digitVal d)
                then capture (digitVal d) ++ getSubstitution r1
                else String c (String d (getSubstitution r1)) in
              match r1 with
              | String d2 r2 =>
                  if isDigit d2 then
                    let i2 := 10 * digitVal d + digitVal d2 in
                    if Nat.ltb (List.length captures) i2 then one
                    else if validIndex i2 then capture i2 ++ getSubstitution r2
                    else String c (String d (String d2 (getSubstitution r2)))
                  else one
              | EmptyString => one
              end
            else String c (getSubstitution r)
        end
  end.
End Substitution.

(** [s.replace(pat, tpl)] with a string pattern: the first occurrence is
    replaced by the expanded template; no occurrence, no change. *)
Definition replaceFirst (pat tpl : string) (s : string) : string :=
  match splitAtFirst pat s with
  | Some (before, after) => before ++ getSubstitution pat before after [] tpl ++ after
  | None => s
  end.

(** [JSON.stringify] of an array of strings. *)
Definition hexDigit (n : nat) : ascii :=
  if Nat.ltb n 10 then ascii_of_nat (48 + n) else ascii_of_nat (87 + n).

Definition jsonEscapeChar (c : ascii) : string :=
  let n := nat_of_ascii c in
  if Nat.eqb n 34 then "\" ++ dquote
  else if Nat.eqb n 92 then "\\"
  else if Nat.eqb n 8 then "\b"
  else if Nat.eqb n 9 then "\t"
  else if Nat.eqb n 10 then "\n"
  else if Nat.eqb n 12 then "\f"
  else if Nat.eqb n 13 then "\r"
  else if Nat.ltb n 32 then
    "\u00" ++ String (hexDigit (n / 16)) (String (hexDigit (n mod 16)) EmptyString)
  else String c EmptyString.

Fixpoint jsonEscape (s : string) : string :=
  match s with
  | EmptyString => EmptyString
  | String c s' => jsonEscapeChar c ++ jsonEscape s'
  end.

Definition jsonString (s : string) : string := dquote ++ jsonEscape s ++ dquote.

Definition jsonStringifyStrings (l : list string) : string :=
  "[" ++ join "," (map jsonString l) ++ "]".

End Js.
Import Js.

(** ** Record model *)

(** [interface Author]. *)
Record Author : Type := mkAuthor {
  given : option string;
  family : option string
}.

(** The value of [issued] and its siblings.  The declared type makes
    ['date-parts'] mandatory, the code also guards against its absence, so
    it is optional here. *)
Record DateField : Type := mkDate {
  date_parts : option (list (list Z))
}.

(** [interface CitationMetadata]: the record the registry returns, also the
    shape the parsed front matter is cast to. *)
Record CitationMetadata : Type := mkMetadata {
  title : option (list string);
  author : option (list Author);
  container_title : option (list string);
  publisher : option string;
  issued : option DateField;
  DOI : option string;
  ISBN : option (list string);
  type : option string;
  URL : option string;
  abstract : option string;
  volume : option string;
  page : option string;
  issue : option string;
  date_accessed : option string
}.

(** The empty object [{}]. *)
Definition emptyMetadata : CitationMetadata :=
  mkMetadata None None None None None None None None None None None None None None.

(** [type CitationStyle]; [NoStyle] is the style the source spells
    ['None']. *)
Inductive CitationStyle : Type :=
| Harvard | Vancouver | NoStyle | APA | Chicago | AMA | AP | Canadian | Oxford.

(** ** Citation formatting functions *)

Notation "x <- c ;; k" := (Js.bind c (fun x => k))
  (at level 61, c at next level, right associativity).

(** The name each formatter uses for itself in its diagnostics. *)
Definition styleLabel (s : CitationStyle) : string :=
  match s with
  | Harvard => "Harvard"
  | Vancouver => "Vancouver"
  | APA => "APA"
  | Chicago => "Chicago"
  | AMA => "AMA"
  | AP => "AP"
  | Canadian => "Canadian"
  | Oxford => "Oxford Reference"
  | NoStyle => "None"
  end.

Definition missingData (s : CitationStyle) : string :=
  "Could not generate " ++ styleLabel s ++ " citation due to missing data.".

Definition missingYearData (s : CitationStyle) : string :=
  "Could not generate " ++ styleLabel s ++ " citation due to missing year data.".

(** [message.issued['date-parts'][0][0]]: reading index 0 of an absent
    ['date-parts'], or of the absent first element of an empty one, throws. *)
Definition issuedYear (d : DateField) : Result (option Z) :=
  match date_parts d with
  | None => Throw readOfUndefined
  | Some [] => Throw readOfUndefined
  | Some (first :: _) => Ok (hd_error first)
  end.

(** [`${author.family}, ${author.given?.[0]}.`] *)
Definition familyInitial (a : Author) : string :=
  tplStr (family a) ++ ", " ++ tplStr (firstChar (given a)) ++ ".".

(** [`${author.given} ${author.family}`] *)
Definition givenFamily (a : Author) : string :=
  tplStr (given a) ++ " " ++ tplStr (family a).

Definition whenStr (o : option string) (f : string -> string) : string :=
  match o with
  | Some (String c r) => f (String c r)
  | _ => EmptyString
  end.

Definition formatHarvardCitation (message : CitationMetadata) : Result string :=
  match author message, issued message, title message, container_title message with
  | Some authorsArray, Some iss, Some ttl, Some ctl =>
      let authors := join ", " (map familyInitial authorsArray) in
      year <- issuedYear iss ;;
      if negb (truthyNum year) then Ok (missingYearData Harvard)
      else
        let title := hd_error ttl in
        let journal := hd_error ctl in
        let doi := DOI message in
        let accessedDate := date_accessed message in
        Ok (authors ++ " (" ++ tplNum year ++ ") " ++ tplStr title ++ ". *" ++ tplStr journal
            ++ "*. Available at: [https://doi.org/" ++ tplStr doi
            ++ "] (Accessed: " ++ tplStr accessedDate ++ ").")
  | _, _, _, _ => Ok (missingData Harvard)
  end.

(** [`${author.family} ${author.given?.[0]}`] *)
Definition familyGiven (a : Author) : string :=
  tplStr (family a) ++ " " ++ tplStr (firstChar (given a)).

(** The callback and the filter of [formatVancouverCitation]. *)
Definition vancouverAuthor (len : nat) (a : Author) (index : nat) : string :=
  let authorStr := familyGiven a in
  if Nat.ltb 3 len && Nat.eqb index 2 then authorStr ++ ", et al"
  else if Nat.leb len 3 || Nat.ltb index 3 then authorStr ++ "."
  else EmptyString.

Definition vancouverKeep (s : string) : bool :=
  negb (String.eqb s ", et al") && negb (String.eqb s EmptyString).

Definition vancouverAuthors (authorsArray : list Author) : string :=
  join " " (filter vancouverKeep
              (mapi (vancouverAuthor (List.length authorsArray)) authorsArray)).

Definition formatVancouverCitation (message : CitationMetadata) : Result string :=
  match author message, issued message, title message, container_title message with
  | Some authorsArray, Some iss, Some ttl, Some ctl =>
      let authors := vancouverAuthors authorsArray in
      year <- issuedYear iss ;;
      if negb (truthyNum year) then Ok (missingYearData Vancouver)
      else
        let title := hd_error ttl in
        let journal := hd_error ctl in
        let doi := DOI message in
        Ok (authors ++ " " ++ tplStr title ++ ". " ++ tplStr journal ++ ". " ++ tplNum year
            ++ "; Available from: [https://doi.org/" ++ tplStr doi ++ "].")
  | _, _, _, _ => Ok (missingData Vancouver)
  end.

Definition apaAuthors (authorsArray : list Author) : string :=
  let len := List.length authorsArray in
  match authorsArray with
  | [] => EmptyString
  | [a0] => familyInitial a0
  | [a0; a1] => familyInitial a0 ++ " & " ++ familyInitial a1
  | a0 :: _ =>
      if Nat.leb len 20 then
        join ", " (mapi (fun a index =>
                           if Nat.eqb index (len - 1) then "& " ++ familyInitial a
                           else familyInitial a) authorsArray)
      else
        join ", " (map familyInitial (firstn 19 authorsArray))
        ++ ", ..., " ++ familyInitial (last authorsArray a0)
  end.

Definition formatAPACitation (message : CitationMetadata) : Result string :=
  match author message, issued message, title message, container_title message with
  | Some authorsArray, Some iss, Some ttl, Some ctl =>
      let authors := apaAuthors authorsArray in
      year <- issuedYear iss ;;
      if negb (truthyNum year) then Ok (missingYearData APA)
      else
        let title := hd_error ttl in
        let journal := hd_error ctl in
        let citation :=
          authors ++ " (" ++ tplNum year ++ "). " ++ tplStr title ++ ". *" ++ tplStr journal ++ "*," in
        let citation := citation ++ whenStr (volume message) (fun v => " *" ++ v ++ "*") in
        let citation := citation ++ whenStr (issue message) (fun i => "(" ++ i ++ ")") in
        let citation := citation ++ whenStr (page message) (fun p => ", " ++ p) in
        let citation :=
          if truthyStr (DOI message) then citation ++ ". " ++ tplStr (DOI message)
          else if truthyStr (URL message) then citation ++ ". Retrieved from " ++ tplStr (URL message)
          else citation in
        Ok citation
  | _, _, _, _ => Ok (missingData APA)
  end.

Definition chicagoAuthors (authorsArray : list Author) : string :=
  match authorsArray with
  | [] => EmptyString
  | [a0] => givenFamily a0
  | [a0; a1] => givenFamily a0 ++ " and " ++ givenFamily a1
  | [a0; a1; a2] => givenFamily a0 ++ ", " ++ givenFamily a1 ++ ", and " ++ givenFamily a2
  | a0 :: _ => givenFamily a0 ++ " et al."
  end.

Definition formatChicagoCitation (message : CitationMetadata) : Result string :=
  match author message, issued message, title message, container_title message with
  | Some authorsArray, Some iss, Some ttl, Some ctl =>
      let authors := chicagoAuthors authorsArray in
      year <- issuedYear iss ;;
      if negb (truthyNum year) then Ok (missingYearData Chicago)
      else
        let title := dquote ++ tplStr (hd_error ttl) ++ dquote in
        let journal := "*" ++ tplStr (hd_error ctl) ++ "*" in
        let volume := volume message in
        let issue := issue message in
        let pages := page message in
        let citation := authors ++ ", " ++ title ++ ", " ++ journal in
        let citation :=
          if truthyStr volume && truthyStr issue && truthyStr pages then
            citation ++ " " ++ tplStr volume ++ ", no. " ++ tplStr issue
            ++ " (" ++ tplNum year ++ "): " ++ tplStr pages ++ "."
          else if truthyStr volume && truthyNum year then
            citation ++ " " ++ tplStr volume ++ " (" ++ tplNum year ++ ")."
          else if truthyNum year then citation ++ " (" ++ tplNum year ++ ")."
          else citation in
        let citation :=
          if truthyStr (DOI message) then citation ++ " https://doi.org/" ++ tplStr (DOI message) ++ "."
          else if truthyStr (URL message) then citation ++ " " ++ tplStr (URL message) ++ "."
          else citation in
        Ok citation
  | _, _, _, _ => Ok (missingData Chicago)
  end.

(** The callback of [formatAMACitation]: the family name followed by the
    initial of every space-separated part of the given name. *)
Definition amaAuthor (a : Author) : string :=
  let authorStr := tplStr (family a) in
  match given a with
  | Some (String c r) =>
      fold_left (fun acc namePart => acc ++ " " ++ charAt0 namePart ++ ".")
                (splitSpace (String c r)) authorStr
  | _ => authorStr
  end.

Definition formatAMACitation (message : CitationMetadata) : Result string :=
  match author message, issued message, title message, container_title message with
  | Some authorsArray, Some iss, Some ttl, Some ctl =>
      let authors :=
        if Nat.leb 1 (List.length authorsArray) then join ", " (map amaAuthor authorsArray)
        else EmptyString in
      year <- issuedYear iss ;;
      if negb (truthyNum year) then Ok (missingYearData AMA)
      else
        let title := hd_error ttl in
        let journal := hd_error ctl in
        let citation := authors ++ ". " ++ tplStr title ++ ". *" ++ tplStr journal ++ "*." in
        let citation := if truthyNum year then citation ++ " " ++ tplNum year ++ ";" else citation in
        let citation := citation ++ whenStr (volume message) (fun v => v) in
        let citation := citation ++ whenStr (issue message) (fun i => "(" ++ i ++ ")") in
        let citation :=
          if truthyStr (page message) then citation ++ ":" ++ tplStr (page message) ++ "."
          else citation ++ "." in
        let citation :=
          if truthyStr (DOI message) then citation ++ " doi:" ++ tplStr (DOI message)
          else if truthyStr (URL message) then
            citation ++ " Available at: " ++ tplStr (URL message)
            ++ ". Accessed " ++ tplStr (date_accessed message)
          else citation in
        Ok citation
  | _, _, _, _ => Ok (missingData AMA)
  end.

Definition formatAPCitation (message : CitationMetadata) : Result string :=
  match author message, issued message, title message, container_title message with
  | Some authorsArray, Some iss, Some ttl, Some ctl =>
      let authors := join ", " (map familyInitial authorsArray) in
      year <- issuedYear iss ;;
      if negb (truthyNum year) then Ok (missingYearData AP)
      else
        let title := hd_error ttl in
        let journal := hd_error ctl in
        let citation :=
          authors ++ " (" ++ tplNum year ++ "). " ++ tplStr title ++ ". _" ++ tplStr journal ++ "_" in
        let citation := citation ++ whenStr (volume message) (fun v => ", " ++ v) in
        let citation := citation ++ whenStr (issue message) (fun i => "(" ++ i ++ ")") in
        let citation :=
          if truthyStr (page message) then citation ++ ", " ++ tplStr (page message) ++ "."
          else citation ++ "." in
        let citation :=
          if truthyStr (DOI message) then citation ++ " doi: " ++ tplStr (DOI message)
          else if truthyStr (URL message) then citation ++ " Retrieved from " ++ tplStr (URL message)
          else citation in
        Ok citation
  | _, _, _, _ => Ok (missingData AP)
  end.

Definition canadianAuthors (authorsArray : list Author) : string :=
  match authorsArray with
  | [a0] => givenFamily a0
  | _ => join ", and " (map givenFamily authorsArray)
  end.

Definition formatCanadianCitation (message : CitationMetadata) : Result string :=
  match author message, issued message, title message, container_title message with
  | Some authorsArray, Some iss, Some ttl, Some ctl =>
      let authors := canadianAuthors authorsArray in
      year <- issuedYear iss ;;
      if negb (truthyNum year) then Ok (missingYearData Canadian)
      else
        let title := hd_error ttl in
        let journal := hd_error ctl in
        let accessedDate := date_accessed message in
        let citation :=
          authors ++ ". " ++ tplNum year ++ ". " ++ tplStr title ++ ". _" ++ tplStr journal ++ "_" in
        let citation := citation ++ whenStr (volume message) (fun v => ", " ++ v) in
        let citation := citation ++ whenStr (issue message) (fun i => "(" ++ i ++ ")") in
        let citation :=
          if truthyStr (page message) then citation ++ ", " ++ tplStr (page message) ++ "."
          else citation ++ "." in
        let citation :=
          if truthyStr (DOI message) then
            citation ++ ". doi: " ++ tplStr (DOI message) ++ " [Accessed " ++ tplStr accessedDate ++ "]."
          else if truthyStr (URL message) then
            citation ++ ". [Online]. Available: " ++ tplStr (URL message)
            ++ " [Accessed " ++ tplStr accessedDate ++ "]."
          else citation ++ " [Accessed " ++ tplStr accessedDate ++ "]." in
        Ok citation
  | _, _, _, _ => Ok (missingData Canadian)
  end.

Definition oxfordAuthors (authorsArray : list Author) : string :=
  let len := List.length authorsArray in
  match authorsArray with
  | [a0] => givenFamily a0 ++ ","
  | _ =>
      join " and " (mapi (fun a index =>
                            if Nat.ltb (S index) len then givenFamily a ++ ","
                            else givenFamily a) authorsArray)
  end.

Definition formatOxfordReferenceCitation (message : CitationMetadata) : Result string :=
  match author message, issued message, title message, container_title message with
  | Some authorsArray, Some iss, Some ttl, Some ctl =>
      let authors := oxfordAuthors authorsArray in
      year <- issuedYear iss ;;
      if negb (truthyNum year) then Ok (missingYearData Oxford)
      else
        let title := "‘" ++ tplStr (hd_error ttl) ++ "’," in
        let journal := "*" ++ tplStr (hd_error ctl) ++ "*" in
        let citation := authors ++ " " ++ title ++ " " ++ journal ++ "," in
        let citation := citation ++ whenStr (volume message) (fun v => " vol. " ++ v) in
        let citation := citation ++ whenStr (issue message) (fun i => ", no. " ++ i) in
        let citation := if truthyNum year then citation ++ " (" ++ tplNum year ++ ")" else citation in
        let citation := citation ++ whenStr (page message) (fun p => ", pp. " ++ p) in
        let citation := citation ++ "." in
        let citation :=
          if truthyStr (DOI message) then citation ++ " doi: " ++ tplStr (DOI message)
          else if truthyStr (URL message) then
            citation ++ " Available at: " ++ tplStr (URL message)
            ++ " (Accessed " ++ tplStr (date_accessed message) ++ ")"
          else citation in
        Ok citation
  | _, _, _, _ => Ok (missingData Oxford)
  end.

(** The dispatch on the style that [createNote] and [changeCitationStyle]
    both spell out; [None] gives the empty citation text. *)
Definition formatCitation (style : CitationStyle) (message : CitationMetadata) : Result string :=
  match style with
  | Harvard => formatHarvardCitation message
  | Vancouver => formatVancouverCitation message
  | APA => formatAPACitation message
  | Chicago => formatChicagoCitation message
  | AMA => formatAMACitation message
  | AP => formatAPCitation message
  | Canadian => formatCanadianCitation message
  | Oxford => formatOxfordReferenceCitation message
  | NoStyle => Ok EmptyString
  end.

(** ** Settings, clock and vault *)

Inductive FileNameStyle : Type := ByTitle | ByAuthor | ByAuthorYear.

Record HappyRefSettings : Type := mkSettings {
  defaultFolder : string;
  citationStyle : CitationStyle;
  fileNameStyle : FileNameStyle
}.

(** What [new Date()] is asked for: [getFullYear()], [getMonth()] (from 0)
    and [getDate()]. *)
Record Date : Type := mkClock {
  getFullYear : Z;
  getMonth : Z;
  getDate : Z
}.

(** [`${yearAccessed}-${month}-${day}`], month and day padded to two
    digits. *)
Definition accessedDate (currentDate : Date) : string :=
  let month := padStart 2 "0" (numToString (getMonth currentDate + 1)) in
  let day := padStart 2 "0" (numToString (getDate currentDate)) in
  numToString (getFullYear currentDate) ++ "-" ++ month ++ "-" ++ day.

(** The vault as [createNote] observes it: whether [getAbstractFileByPath]
    finds a file ([instanceof TFile]) or anything at all at a path, and
    whether [createFolder] succeeds. *)
Record Vault : Type := mkVault {
  isFile : string -> bool;
  hasEntry : string -> bool;
  createFolderOk : string -> bool
}.

(** ** The first revision's Harvard formatter

    [main - Copy.ts] has two formatters.  Its Vancouver one is the text of
    the later revision; its Harvard one stamps the access date itself, from
    the clock and the locale's long month name. *)
Module Rev1.

Definition formatHarvardCitation (monthName : Z -> string) (currentDate : Date)
           (message : CitationMetadata) : Result string :=
  match author message, issued message, title message, container_title message with
  | Some authorsArray, Some iss, Some ttl, Some ctl =>
      let authors := join ", " (map familyInitial authorsArray) in
      year <- issuedYear iss ;;
      if negb (truthyNum year) then Ok (missingYearData Harvard)
      else
        let title := hd_error ttl in
        let journal := hd_error ctl in
        let doi := DOI message in
        let accessedDate :=
          monthName (getMonth currentDate) ++ " " ++ numToString (getDate currentDate)
          ++ ", " ++ numToString (getFullYear currentDate) in
        Ok (authors ++ " (" ++ tplNum year ++ ") " ++ tplStr title ++ ". *" ++ tplStr journal
            ++ "*. Available at: [https://doi.org/" ++ tplStr doi
            ++ "] (Accessed: " ++ accessedDate ++ ").")
  | _, _, _, _ => Ok (missingData Harvard)
  end.

End Rev1.

(** ** Note creation: the path *)

Fixpoint allSlashes (s : string) : bool :=
  match s with
  | EmptyString => true
  | String c s' => Ascii.eqb c "/" && allSlashes s'
  end.

(** [folderPath.replace(/\/+$/, '')] *)
Fixpoint trimTrailingSlashes (s : string) : string :=
  match s with
  | EmptyString => EmptyString
  | String c s' => if allSlashes s then EmptyString else String c (trimTrailingSlashes s')
  end.

Definition nonEmpty (s : string) : bool :=
  match s with EmptyString => false | String _ _ => true end.

(** The folder and the first path [createNote] tries: the folder is
    trimmed, created when missing, and given up for the root when the
    creation fails. *)
Definition initialPath (vault : Vault) (folder : string) (filename : string) : string * string :=
  if nonEmpty folder then
    let folderPath := trimTrailingSlashes folder in
    let folderPath :=
      if hasEntry vault folderPath then folderPath
      else if createFolderOk vault folderPath then folderPath
      else EmptyString in
    (folderPath, folderPath ++ "/" ++ filename ++ ".md")
  else (folder, filename ++ ".md").

(** The path the loop body builds for a suffix. *)
Definition suffixedPath (folderPath baseFilename : string) (suffix : nat) : string :=
  let filename := baseFilename ++ " (" ++ natToString suffix ++ ")" in
  if nonEmpty folderPath then trimTrailingSlashes folderPath ++ "/" ++ filename ++ ".md"
  else filename ++ ".md".

(** [while (file instanceof TFile) { ... suffix++ }], with fuel for the
    iterations: [None] when the fuel runs out before a free path is found. *)
Fixpoint resolveLoop (fuel : nat) (vault : Vault) (folderPath baseFilename : string)
         (filePath : string) (suffix : nat) : option string :=
  match fuel with
  | O => None
  | S fuel' =>
      if isFile vault filePath then
        resolveLoop fuel' vault folderPath baseFilename
                    (suffixedPath folderPath baseFilename suffix) (S suffix)
      else Some filePath
  end.

Definition resolvePath (fuel : nat) (vault : Vault) (folder baseFilename : string) : option string :=
  let '(folderPath, filePath) := initialPath vault folder baseFilename in
  resolveLoop fuel vault folderPath baseFilename filePath 1.

(** The [n]-th path the loop looks at: the initial one, then the suffixed
    ones from 1. *)
Definition candidate (vault : Vault) (folder baseFilename : string) (n : nat) : string :=
  match n with
  | O => snd (initialPath vault folder baseFilename)
  | S _ => suffixedPath (fst (initialPath vault folder baseFilename)) baseFilename n
  end.

(** ** Note creation: the content *)

Definition authorNames (message : CitationMetadata) : list string :=
  match author message with
  | Some authorsArray => map givenFamily authorsArray
  | None => []
  end.

Definition firstTruthy (o : option (list string)) : bool :=
  match o with
  | Some (String _ _ :: _) => true
  | _ => false
  end.

(** [`${year}`] followed by the padded month and day when they are truthy. *)
Definition dateString (dateParts : list Z) : string :=
  let year := nth_error dateParts 0 in
  let month := nth_error dateParts 1 in
  let day := nth_error dateParts 2 in
  let dateString := tplNum year in
  let dateString :=
    match month with
    | Some mo => if truthyNum month then dateString ++ "-" ++ padStart 2 "0" (numToString mo)
                 else dateString
    | None => dateString
    end in
  match day with
  | Some d => if truthyNum day then dateString ++ "-" ++ padStart 2 "0" (numToString d)
              else dateString
  | None => dateString
  end.

(** The guard [issued && issued['date-parts'] && issued['date-parts'][0]]. *)
Definition firstDateParts (message : CitationMetadata) : option (list Z) :=
  match issued message with
  | Some (mkDate (Some (first :: _))) => Some first
  | _ => None
  end.

(** The front matter [createNote] writes, up to and including the blank
    line after the closing fence. *)
Definition createNoteFrontmatter (currentDate : Date) (message : CitationMetadata) : string :=
  let authors := authorNames message in
  let content := "---" ++ nl ++ "tags: [CreatedBy/HappyRef]" ++ nl in
  let content :=
    if Nat.ltb 0 (List.length authors)
    then content ++ "authors: " ++ jsonStringifyStrings authors ++ nl else content in
  let content :=
    if firstTruthy (container_title message)
    then content ++ "Journal: " ++ tplStr (hd_error (match container_title message with Some l => l | None => [] end)) ++ nl
    else content in
  let content := content ++ whenStr (volume message) (fun v => "Volume: " ++ v ++ nl) in
  let content := content ++ whenStr (page message) (fun v => "Page: " ++ v ++ nl) in
  let content := content ++ whenStr (issue message) (fun v => "Issue: " ++ v ++ nl) in
  let content :=
    match firstDateParts message with
    | Some dateParts => content ++ "Publication_Date: " ++ dateString dateParts ++ nl
    | None => content
    end in
  let content := content ++ whenStr (DOI message) (fun v => "DOI: " ++ v ++ nl) in
  let content := content ++ whenStr (type message) (fun v => "Type: " ++ v ++ nl) in
  let content := content ++ whenStr (URL message) (fun v => "URL: " ++ v ++ nl) in
  let content :=
    match ISBN message with
    | Some isbn => content ++ "ISBN: " ++ tplStr (hd_error isbn) ++ nl
    | None => content
    end in
  let content := content ++ "Date Accessed: " ++ accessedDate currentDate ++ nl in
  content ++ "---" ++ nl ++ nl.

(** The abstract after the ten [replaceAll] calls.  The first call passes
    no replacement, which JavaScript reads as the string [undefined]. *)
Definition sanitizeAbstract (a : string) : string :=
  let a := replaceAll "<jats:title>Abstract</jats:title>" "undefined" a in
  let a := replaceAll "<jats:sec>" "" a in
  let a := replaceAll "</jats:sec>" "" a in
  let a := replaceAll "<jats:title>" "### " a in
  let a := replaceAll "</jats:title>" "" a in
  let a := replaceAll "<jats:p>" "" a in
  let a := replaceAll "</jats:p>" "" a in
  let a := replaceAll ("<" ++ tab) "" a in
  let a := replaceAll ("<" ++ nl ++ nl) nl a in
  replaceAll "  " "" a.

Definition abstractSection (message : CitationMetadata) : string :=
  "## Abstract" ++ nl ++
  (if truthyStr (abstract message)
   then sanitizeAbstract (tplStr (abstract message)) ++ nl
   else "*There is no abstract in this citation's metadata*" ++ nl).

Definition titleHeading (message : CitationMetadata) : string :=
  "# " ++ (if firstTruthy (title message)
           then tplStr (hd_error (match title message with Some l => l | None => [] end))
           else "Untitled") ++ nl ++ nl.

Definition citationSection (citationText : string) : string :=
  if nonEmpty citationText
  then "## Citation" ++ nl ++ citationText ++ nl ++ nl ++ "---" ++ nl ++ nl
  else EmptyString.

(** The text [createNote] hands to [vault.create]. *)
Definition createNoteContent (settings : HappyRefSettings) (currentDate : Date)
           (message : CitationMetadata) : Result string :=
  let content := createNoteFrontmatter currentDate message in
  let content := content ++ titleHeading message in
  citationText <- formatCitation (citationStyle settings) message ;;
  let content := content ++ citationSection citationText in
  Ok (content ++ abstractSection message).

(** ** Rewriting the front matter *)

(** [fileContent.match(/^---([\s\S]*?)---/)]: the text between the fence
    that opens the file and the first fence after it (group 1), and the
    text after the match. *)
Definition frontmatterMatch (fileContent : string) : option (string * string) :=
  match stripPrefix "---" fileContent with
  | Some rest => splitAtFirst "---" rest
  | None => None
  end.

(** The front matter [updateYAMLFrontmatter] generates. *)
Definition newFrontmatterString (currentDate : Date) (metadata : CitationMetadata) : string :=
  let fm := "---" ++ nl ++ "tags: [CreatedBy/HappyRef]" ++ nl in
  let fm :=
    match author metadata with
    | Some (a :: rest) =>
        fm ++ "authors: " ++ jsonStringifyStrings (map givenFamily (a :: rest)) ++ nl
    | _ => fm
    end in
  let fm :=
    if firstTruthy (container_title metadata)
    then fm ++ "Journal: " ++ tplStr (hd_error (match container_title metadata with Some l => l | None => [] end)) ++ nl
    else fm in
  let fm := fm ++ whenStr (volume metadata) (fun v => "Volume: " ++ v ++ nl) in
  let fm := fm ++ whenStr (page metadata) (fun v => "Page: " ++ v ++ nl) in
  let fm := fm ++ whenStr (issue metadata) (fun v => "Issue: " ++ v ++ nl) in
  let fm :=
    match firstDateParts metadata with
    | Some dateParts => fm ++ "Publication_Date: " ++ dateString dateParts ++ nl
    | None => fm
    end in
  let fm := fm ++ whenStr (DOI metadata) (fun v => "DOI: " ++ v ++ nl) in
  let fm := fm ++ whenStr (type metadata) (fun v => "Type: " ++ v ++ nl) in
  let fm := fm ++ whenStr (URL metadata) (fun v => "URL: " ++ v ++ nl) in
  let fm :=
    if firstTruthy (ISBN metadata)
    then fm ++ "ISBN: " ++ tplStr (hd_error (match ISBN metadata with Some l => l | None => [] end)) ++ nl
    else fm in
  let fm :=
    if truthyStr (date_accessed metadata)
    then fm ++ "Date Accessed: " ++ tplStr (date_accessed metadata) ++ nl
    else fm ++ "Date Accessed: " ++ accessedDate currentDate ++ nl in
  fm ++ "---".

(** The text [updateYAMLFrontmatter] hands to [vault.modify]. *)
Definition updateYAMLFrontmatter (currentDate : Date) (fileContent : string)
           (metadata : CitationMetadata) : string :=
  let fm := newFrontmatterString currentDate metadata in
  match frontmatterMatch fileContent with
  | Some (group1, _) => replaceFirst ("---" ++ group1 ++ "---") fm fileContent
  | None => fm ++ nl ++ fileContent
  end.

(** ** Changing the citation style *)

(** The loop over [requiredMetadata]. *)
Definition requiredMetadata : list string := ["author"; "issued"; "title"; "container-title"].

(** [!citationMetadata[field]] for the property names the plugin reads. *)
Definition fieldTruthy (m : CitationMetadata) (field : string) : bool :=
  if String.eqb field "author" then isSome (author m)
  else if String.eqb field "issued" then isSome (issued m)
  else if String.eqb field "title" then isSome (title m)
  else if String.eqb field "container-title" then isSome (container_title m)
  else false.

Definition metadataComplete (m : CitationMetadata) : bool :=
  forallb (fieldTruthy m) requiredMetadata.

(** [contentBody.match(/(## Citation\n)([\s\S]*?)(\n---)/)]: the text before
    the match, group 2 and the text after the match.  The match starts at
    the first heading; group 2, being lazy, ends at the first fence line
    after it. *)
Definition citationHeading : string := "## Citation" ++ nl.
Definition fenceLine : string := nl ++ "---".

Definition citationSectionMatch (contentBody : string) : option (string * string * string) :=
  match splitAtFirst citationHeading contentBody with
  | Some (before, rest) =>
      match splitAtFirst fenceLine rest with
      | Some (group2, after) => Some (before, group2, after)
      | None => None
      end
  | None => None
  end.

(** [updatedContent]: the section replaced through the template
    [`$1${citationText}\n\n---`], or appended when there is none. *)
Definition replaceCitationSection (contentBody citationText : string) : string :=
  match citationSectionMatch contentBody with
  | Some (before, group2, after) =>
      before
      ++ getSubstitution (citationHeading ++ group2 ++ fenceLine) before after
                         [citationHeading; group2; fenceLine]
                         ("$1" ++ citationText ++ nl ++ nl ++ "---")
      ++ after
  | None => contentBody ++ nl ++ "## Citation" ++ nl ++ citationText ++ nl ++ nl ++ "---"
  end.

(** The external collaborators of the flow.  [yamlLoad] is [yaml.load] seen
    through the cast [as CitationMetadata]: it may throw, a falsy result is
    [None], and of a parsed mapping the properties that [CitationMetadata]
    declares are kept (the plugin reads no other).  [fetchCrossrefData] is
    the HTTP call followed by [newData && newData.message]. *)
Record Collaborators : Type := mkCollaborators {
  yamlLoad : string -> Result (option CitationMetadata);
  fetchCrossrefData : string -> Result (option CitationMetadata)
}.

Definition setDateAccessed (m : CitationMetadata) (d : string) : CitationMetadata :=
  mkMetadata (title m) (author m) (container_title m) (publisher m) (issued m) (DOI m)
             (ISBN m) (type m) (URL m) (abstract m) (volume m) (page m) (issue m) (Some d).

(** The [try { ... } catch (fetchError) { throw new Error(...) }] around
    the re-fetch. *)
Definition refetch (env : Collaborators) (currentDate : Date) (doi : string)
  : Result CitationMetadata :=
  let attempt : Result CitationMetadata :=
    newData <- fetchCrossrefData env doi ;;
    match newData with
    | Some fetched => Ok (setDateAccessed fetched (accessedDate currentDate))
    | None => Throw (Error ("Failed to re-fetch data from Crossref for DOI: " ++ doi))
    end in
  match attempt with
  | Ok m => Ok m
  | Throw fetchError =>
      Throw (Error ("Error re-fetching citation data: " ++ message fetchError))
  end.

(** [yaml.load(...) as CitationMetadata || {}] *)
Definition frontmatterObject (loaded : option CitationMetadata) : CitationMetadata :=
  match loaded with Some m => m | None => emptyMetadata end.

(** [changeCitationStyle] on a note whose text is [fileContent]: the text
    of the file when the command ends (every [vault.modify] replaces it)
    and how the command ends. *)
Definition changeCitationStyle (env : Collaborators) (currentDate : Date)
           (fileContent : string) (newStyle : CitationStyle) : string * Result unit :=
  match frontmatterMatch fileContent with
  | None =>
      (fileContent,
       Throw (Error "No YAML frontmatter found in the note to update citation style."))
  | Some (group1, contentBody) =>
      match yamlLoad env group1 with
      | Throw e => (fileContent, Throw e)
      | Ok loaded =>
          let frontmatter := frontmatterObject loaded in
          let '(file1, checked) :=
            if metadataComplete frontmatter then (fileContent, Ok frontmatter)
            else if truthyStr (DOI frontmatter) then
              match refetch env currentDate (tplStr (DOI frontmatter)) with
              | Ok fetched => (updateYAMLFrontmatter currentDate fileContent fetched, Ok fetched)
              | Throw e => (fileContent, Throw e)
              end
            else
              (fileContent,
               Throw (Error "Missing DOI in note metadata. Cannot re-fetch citation data.")) in
          match checked with
          | Throw e => (file1, Throw e)
          | Ok citationMetadata =>
              match formatCitation newStyle citationMetadata with
              | Throw e => (file1, Throw e)
              | Ok citationText =>
                  let updatedContent := replaceCitationSection contentBody citationText in
                  ("---" ++ nl ++ group1 ++ "---" ++ nl ++ updatedContent, Ok tt)
              end
          end
      end
  end.

(** ** The keys of the rendered front matter *)

(** The entries [createNote] writes, as key and value, in order. *)
Definition entryWhen (key : string) (o : option string) : list (string * string) :=
  match o with
  | Some (String c r) => [(key, String c r)]
  | _ => []
  end.

Definition frontmatterEntries (currentDate : Date) (message : CitationMetadata)
  : list (string * string) :=
  [("tags", "[CreatedBy/HappyRef]")]
  ++ (if Nat.ltb 0 (List.length (authorNames message))
      then [("authors", jsonStringifyStrings (authorNames message))] else [])
  ++ (if firstTruthy (container_title message)
      then [("Journal", tplStr (hd_error (match container_title message with Some l => l | None => [] end)))]
      else [])
  ++ entryWhen "Volume" (volume message)
  ++ entryWhen "Page" (page message)
  ++ entryWhen "Issue" (issue message)
  ++ (match firstDateParts message with
      | Some dateParts => [("Publication_Date", dateString dateParts)]
      | None => []
      end)
  ++ entryWhen "DOI" (DOI message)
  ++ entryWhen "Type" (type message)
  ++ entryWhen "URL" (URL message)
  ++ (match ISBN message with
      | Some isbn => [("ISBN", tplStr (hd_error isbn))]
      | None => []
      end)
  ++ [("Date Accessed", accessedDate currentDate)].

Definition entryLine (e : string * string) : string := fst e ++ ": " ++ snd e ++ nl.

Fixpoint entryLines (es : list (string * string)) : string :=
  match es with
  | [] => EmptyString
  | e :: rest => entryLine e ++ entryLines rest
  end.

Definition frontmatterKeys (currentDate : Date) (message : CitationMetadata) : list string :=
  map fst (frontmatterEntries currentDate message).



(** ** Sample data *)

Definition formatterStyles : list CitationStyle :=
  [Harvard; Vancouver; APA; Chicago; AMA; AP; Canadian; Oxford].

Definition lecun : CitationMetadata :=
  mkMetadata (Some ["Deep Learning"]) (Some [mkAuthor (Some "Yann") (Some "LeCun")])
             (Some ["Nature"]) None (Some (mkDate (Some [[2015%Z]]))) (Some "10.1/x")
             None None None None None None None None.

Definition withIssued (m : CitationMetadata) (d : option DateField) : CitationMetadata :=
  mkMetadata (title m) (author m) (container_title m) (publisher m) d (DOI m)
             (ISBN m) (type m) (URL m) (abstract m) (volume m) (page m) (issue m)
             (date_accessed m).

Definition withISBN (m : CitationMetadata) (i : option (list string)) : CitationMetadata :=
  mkMetadata (title m) (author m) (container_title m) (publisher m) (issued m) (DOI m)
             i (type m) (URL m) (abstract m) (volume m) (page m) (issue m)
             (date_accessed m).

Definition withAbstract (m : CitationMetadata) (a : option string) : CitationMetadata :=
  mkMetadata (title m) (author m) (container_title m) (publisher m) (issued m) (DOI m)
             (ISBN m) (type m) (URL m) a (volume m) (page m) (issue m)
             (date_accessed m).

(** [issued: { 'date-parts': [] }] and [issued: {}]. *)
Definition emptyDateParts : CitationMetadata := withIssued lecun (Some (mkDate (Some []))).
Definition absentDateParts : CitationMetadata := withIssued lecun (Some (mkDate None)).

(** [issued: { 'date-parts': [[]] }]. *)
Definition emptyFirstDatePart : CitationMetadata := withIssued lecun (Some (mkDate (Some [[]]))).

(** [ISBN: []]. *)
Definition emptyISBN : CitationMetadata := withISBN lecun (Some []).

Definition jatsAbstract : CitationMetadata :=
  withAbstract lecun (Some "<jats:title>Abstract</jats:title><jats:p>Text</jats:p>").

Definition settingsWith (style : CitationStyle) : HappyRefSettings :=
  mkSettings EmptyString style ByTitle.

Definition clock : Date := mkClock 2026 10 2.

(** What [yaml.load] makes of the front matter of the sample note, seen
    through [CitationMetadata]: of the keys written, only [DOI] is a
    property the plugin reads. *)
Definition sampleFrontmatter : CitationMetadata :=
  mkMetadata None None None None None (Some "10.1/x") None None None None None None None None.

Definition sampleEnv : Collaborators :=
  mkCollaborators (fun _ => Ok (Some sampleFrontmatter)) (fun _ => Ok (Some lecun)).

(** A vault in which exactly [X.md], [X (1).md] and [X (2).md] are files. *)
Definition vaultX : Vault :=
  mkVault (fun p => String.eqb p "X.md" || String.eqb p "X (1).md" || String.eqb p "X (2).md")
          (fun _ => true) (fun _ => true).

(** The path the loop holds after [k] iterations when it started with
    [filePath] and [suffix]. *)
Definition pathAt (folderPath baseFilename filePath : string) (suffix k : nat) : string :=
  match k with
  | O => filePath
  | S j => suffixedPath folderPath baseFilename (suffix + j)
  end.

(** The note [createNote] writes for the sample clock and a style. *)
Definition noteOf (style : CitationStyle) (m : CitationMetadata) : string :=
  match createNoteContent (settingsWith style) clock m with
  | Ok content => content
  | Throw _ => EmptyString
  end.

(** The sample note in parts: the text between the fences and the body,
    with and without a citation section. *)
Definition sampleBlock : string :=
  nl ++ "tags: [CreatedBy/HappyRef]" ++ nl
  ++ "authors: [" ++ dquote ++ "Yann LeCun" ++ dquote ++ "]" ++ nl
  ++ "Journal: Nature" ++ nl
  ++ "Publication_Date: 2015" ++ nl
  ++ "DOI: 10.1/x" ++ nl
  ++ "Date Accessed: 2026-11-02" ++ nl.

Definition sampleHeading : string := nl ++ nl ++ "# Deep Learning" ++ nl ++ nl.

Definition sampleAbstract : string :=
  "## Abstract" ++ nl ++ "*There is no abstract in this citation's metadata*" ++ nl.

Definition sampleBody (citationText : string) : string :=
  sampleHeading ++ "## Citation" ++ nl ++ citationText ++ nl ++ nl ++ "---" ++ nl ++ nl
  ++ sampleAbstract.

Definition harvardText : string :=
  "LeCun, Y. (2015) Deep Learning. *Nature*. Available at: [https://doi.org/10.1/x] (Accessed: undefined).".

Definition apaText : string := "LeCun, Y. (2015). Deep Learning. *Nature*,. 10.1/x".

(** The entries [updateYAMLFrontmatter] writes, as key and value, in
    order. *)
Definition rewrittenEntries (currentDate : Date) (metadata : CitationMetadata)
  : list (string * string) :=
  [("tags", "[CreatedBy/HappyRef]")]
  ++ (match author metadata with
      | Some (a :: rest) => [("authors", jsonStringifyStrings (map givenFamily (a :: rest)))]
      | _ => []
      end)
  ++ (if firstTruthy (container_title metadata)
      then [("Journal", tplStr (hd_error (match container_title metadata with Some l => l | None => [] end)))]
      else [])
  ++ entryWhen "Volume" (volume metadata)
  ++ entryWhen "Page" (page metadata)
  ++ entryWhen "Issue" (issue metadata)
  ++ (match firstDateParts metadata with
      | Some dateParts => [("Publication_Date", dateString dateParts)]
      | None => []
      end)
  ++ entryWhen "DOI" (DOI metadata)
  ++ entryWhen "Type" (type metadata)
  ++ entryWhen "URL" (URL metadata)
  ++ (if firstTruthy (ISBN metadata)
      then [("ISBN", tplStr (hd_error (match ISBN metadata with Some l => l | None => [] end)))]
      else [])
  ++ [("Date Accessed",
       if truthyStr (date_accessed metadata) then tplStr (date_accessed metadata)
       else accessedDate currentDate)].

(** The keys [createNote] can write. *)
Definition knownKeys : list string :=
  ["tags"; "authors"; "Journal"; "Volume"; "Page"; "Issue"; "Publication_Date";
   "DOI"; "Type"; "URL"; "ISBN"; "Date Accessed"].

(** No dollar sign, hence no replacement pattern. *)
Fixpoint dollarFree (s : string) : bool :=
  match s with
  | EmptyString => true
  | String c r => negb (Ascii.eqb c "$") && dollarFree r
  end.

(** The block of the sample note when the record has [ISBN: []]. *)
Definition sampleBlockISBN : string :=
  nl ++ "tags: [CreatedBy/HappyRef]" ++ nl
  ++ "authors: [" ++ dquote ++ "Yann LeCun" ++ dquote ++ "]" ++ nl
  ++ "Journal: Nature" ++ nl
  ++ "Publication_Date: 2015" ++ nl
  ++ "DOI: 10.1/x" ++ nl
  ++ "ISBN: undefined" ++ nl
  ++ "Date Accessed: 2026-11-02" ++ nl.

(** A record without DOI and the typed view of its note's front matter:
    of the keys written, only [URL] is a property the plugin knows. *)
Definition noDoi : CitationMetadata :=
  mkMetadata (Some ["Deep Learning"]) (Some [mkAuthor (Some "Yann") (Some "LeCun")])
             (Some ["Nature"]) None (Some (mkDate (Some [[2015%Z]]))) None
             None None (Some "https://example.org/dl") None None None None None.






(** What the replacement template ends with after the citation text. *)
Definition fenceTail : string := nl ++ nl ++ "---".

(** ** Note creation: the file name *)

(** The message as the registry returns it: the properties
    [CitationMetadata] declares and the three further dates that
    [createNote] probes for a year. *)
Record RegistryMessage : Type := mkMessage {
  record : CitationMetadata;
  published_print : option DateField;
  published_online : option DateField;
  created : option DateField
}.

(** The character class of the file-name expression: slash, backslash,
    question mark, percent, asterisk, colon, bar, double quote, less-than
    and greater-than. *)
Definition isForbidden (c : ascii) : bool :=
  let n := nat_of_ascii c in
  Nat.eqb n 47 || Nat.eqb n 92 || Nat.eqb n 63 || Nat.eqb n 37 || Nat.eqb n 42
  || Nat.eqb n 58 || Nat.eqb n 124 || Nat.eqb n 34 || Nat.eqb n 60 || Nat.eqb n 62.

(** [s.replace(/[...]/g, ' ')] for that class. *)
Fixpoint sanitizeChars (s : string) : string :=
  match s with
  | EmptyString => EmptyString
  | String c r => String (if isForbidden c then " "%char else c) (sanitizeChars r)
  end.

(** White space among the characters of the model: tab, line feed,
    vertical tab, form feed, carriage return and space. *)
Definition isSpace (c : ascii) : bool :=
  let n := nat_of_ascii c in
  (Nat.leb 9 n && Nat.leb n 13) || Nat.eqb n 32.

Fixpoint allSpace (s : string) : bool :=
  match s with
  | EmptyString => true
  | String c r => isSpace c && allSpace r
  end.

Fixpoint trimStart (s : string) : string :=
  match s with
  | EmptyString => EmptyString
  | String c r => if isSpace c then trimStart r else s
  end.

Fixpoint trimEnd (s : string) : string :=
  match s with
  | EmptyString => EmptyString
  | String c r => if allSpace s then EmptyString else String c (trimEnd r)
  end.

(** [s.trim()] *)
Definition trim (s : string) : string := trimEnd (trimStart s).

(** [s || fallback] on strings. *)
Definition orElse (s fallback : string) : string :=
  if nonEmpty s then s else fallback.

(** The guard chain [d && d['date-parts'] && d['date-parts'][0] &&
    d['date-parts'][0][0]] and the year it lets through. *)
Definition truthyYear (d : option DateField) : option Z :=
  match d with
  | Some (mkDate (Some (first :: _))) =>
      match hd_error first with
      | Some y => if Z.eqb y 0 then None else Some y
      | None => None
      end
  | _ => None
  end.

(** The year for the file name: [issued], then [published-print],
    [published-online] and [created]. *)
Definition probeYear (message : RegistryMessage) : option Z :=
  match truthyYear (issued (record message)) with
  | Some y => Some y
  | None =>
      match truthyYear (published_print message) with
      | Some y => Some y
      | None =>
          match truthyYear (published_online message) with
          | Some y => Some y
          | None => truthyYear (created message)
          end
      end
  end.

(** [firstAuthor.family || 'UnknownAuthor'] *)
Definition familyOrUnknown (a : Author) : string :=
  if truthyStr (family a) then tplStr (family a) else "UnknownAuthor".

(** [baseFilename] as [createNote] computes it from the file-name style. *)
Definition deriveBaseFilename (style : FileNameStyle) (message : RegistryMessage) : string :=
  match style with
  | ByTitle =>
      let title :=
        if firstTruthy (title (record message))
        then tplStr (hd_error (match title (record message) with Some l => l | None => [] end))
        else "Untitled" in
      orElse (trim (sanitizeChars title)) "Crossref Note"
  | ByAuthor =>
      match author (record message) with
      | Some (firstAuthor :: _) =>
          orElse (trim (sanitizeChars (familyOrUnknown firstAuthor))) "Crossref Note"
      | _ => "Untitled"
      end
  | ByAuthorYear =>
      match author (record message) with
      | Some (firstAuthor :: others) =>
          match probeYear message with
          | Some year =>
              let authorString :=
                familyOrUnknown firstAuthor
                ++ (if Nat.ltb 1 (List.length (firstAuthor :: others)) then " et al" else "") in
              trim (sanitizeChars (authorString ++ " (" ++ numToString year ++ ")"))
          | None => "Untitled"
          end
      | _ => "Untitled"
      end
  end.

(** [createNote]: the path and the text handed to [vault.create].  [None]
    when the fuel of the path loop runs out. *)
Definition createNote (fuel : nat) (vault : Vault) (settings : HappyRefSettings)
           (currentDate : Date) (message : RegistryMessage)
  : option (Result (string * string)) :=
  let baseFilename := deriveBaseFilename (fileNameStyle settings) message in
  match resolvePath fuel vault (defaultFolder settings) baseFilename with
  | None => None
  | Some filePath =>
      Some (content <- createNoteContent settings currentDate (record message) ;;
            Ok (filePath, content))
  end.

(** No character of the class, no white space at either end. *)
Fixpoint noForbidden (s : string) : bool :=
  match s with
  | EmptyString => true
  | String c r => negb (isForbidden c) && noForbidden r
  end.

Definition startsWithSpace (s : string) : bool :=
  match s with String c _ => isSpace c | EmptyString => false end.

Fixpoint endsWithSpace (s : string) : bool :=
  match s with
  | EmptyString => false
  | String c EmptyString => isSpace c
  | String _ r => endsWithSpace r
  end.

Fixpoint hasChar (x : ascii) (s : string) : bool :=
  match s with
  | EmptyString => false
  | String c r => Ascii.eqb c x || hasChar x r
  end.

Definition msgOf (m : CitationMetadata) : RegistryMessage := mkMessage m None None None.

(** What sanitizing and trimming establish, fallback included. *)
Definition tidy (s : string) : Prop :=
  noForbidden s = true /\ startsWithSpace s = false /\ endsWithSpace s = false.

(** A record titled [X]. *)
Definition titledX : CitationMetadata :=
  mkMetadata (Some ["X"]) None None None None None None None None None None None None None.

(** ** The first revision: identifier dialogs and path *)

(** [value.replace(/\s/g, '')] *)
Fixpoint removeWhitespace (s : string) : string :=
  match s with
  | EmptyString => EmptyString
  | String c r => if isSpace c then removeWhitespace r else String c (removeWhitespace r)
  end.

Definition doiOrgPrefix : string := "https://doi.org/".

(** The [input] listener of [DOIModal]: white space out, then the
    [doi.org] prefix off. *)
Definition doiInputListener (value : string) : string :=
  let value := removeWhitespace value in
  match stripPrefix doiOrgPrefix value with
  | Some rest => rest
  | None => value
  end.

(** Equality of characters up to the case of ASCII letters, as the [i]
    flag compares them. *)
Definition upper (c : ascii) : ascii :=
  let n := nat_of_ascii c in
  if Nat.leb 97 n && Nat.leb n 122 then ascii_of_nat (n - 32) else c.

Definition eqbCase (a b : ascii) : bool := Ascii.eqb (upper a) (upper b).

(** [value.replace(/^ISBN[:-]?/i, '')] *)
Definition stripIsbnLabel (value : string) : string :=
  match value with
  | String a (String b (String c (String d rest))) =>
      if eqbCase a "I" && eqbCase b "S" && eqbCase c "B" && eqbCase d "N" then
        match rest with
        | String e rest' =>
            if Ascii.eqb e ":" || Ascii.eqb e "-" then rest' else rest
        | EmptyString => rest
        end
      else value
  | _ => value
  end.

(** The [input] listener of [ISBNModal]. *)
Definition isbnInputListener (value : string) : string :=
  stripIsbnLabel (removeWhitespace value).

(** The click on the button of either dialog: the trimmed value goes to
    [onSubmit] ([Some]) unless it is empty (a notice, [None]). *)
Definition submitValue (value : string) : option string :=
  let trimmed := trim value in
  if nonEmpty trimmed then Some trimmed else None.

Fixpoint noSpace (s : string) : bool :=
  match s with
  | EmptyString => true
  | String c r => negb (isSpace c) && noSpace r
  end.

(** [title?.[0] || "Untitled"], sanitized and trimmed, and the path loop of
    the first revision's [createNote]: the fallback name is used for the
    first path only, the loop builds its paths from [sanitizedTitle]. *)
Definition rev1SanitizedTitle (message : CitationMetadata) : string :=
  trim (sanitizeChars
          (if firstTruthy (title message)
           then tplStr (hd_error (match title message with Some l => l | None => [] end))
           else "Untitled")).

Definition rev1ResolvePath (fuel : nat) (vault : Vault) (folderPath : string)
           (message : CitationMetadata) : option string :=
  let sanitizedTitle := rev1SanitizedTitle message in
  let filename := orElse sanitizedTitle "Crossref Note" in
  let filePath :=
    if nonEmpty folderPath then trimTrailingSlashes folderPath ++ "/" ++ filename ++ ".md"
    else filename ++ ".md" in
  resolveLoop fuel vault folderPath sanitizedTitle filePath 1.

(** A title of forbidden characters only, and a vault in which the
    fallback name is taken. *)
Definition questionMarks : CitationMetadata :=
  mkMetadata (Some ["???"]) None None None None None None None None None None None None None.

Definition vaultFallbackTaken : Vault :=
  mkVault (fun p => String.eqb p "Crossref Note.md") (fun _ => true) (fun _ => true).

(** ** Further sample data *)

Definition withURL (m : CitationMetadata) (u : option string) : CitationMetadata :=
  mkMetadata (title m) (author m) (container_title m) (publisher m) (issued m) (DOI m)
             (ISBN m) (type m) u (abstract m) (volume m) (page m) (issue m)
             (date_accessed m).

Definition withDOI (m : CitationMetadata) (d : option string) : CitationMetadata :=
  mkMetadata (title m) (author m) (container_title m) (publisher m) (issued m) d
             (ISBN m) (type m) (URL m) (abstract m) (volume m) (page m) (issue m)
             (date_accessed m).

Definition withAuthors (m : CitationMetadata) (a : option (list Author)) : CitationMetadata :=
  mkMetadata (title m) a (container_title m) (publisher m) (issued m) (DOI m)
             (ISBN m) (type m) (URL m) (abstract m) (volume m) (page m) (issue m)
             (date_accessed m).

(** Collaborators whose registry answers with a record that has an empty
    ['date-parts']. *)
Definition brokenDateEnv : Collaborators :=
  mkCollaborators (fun _ => Ok (Some sampleFrontmatter)) (fun _ => Ok (Some emptyDateParts)).

(** A plain-text abstract, and the note and registry answer used to show a
    style change that fails after its re-fetch. *)
Definition plainAbstract : CitationMetadata :=
  withAbstract lecun (Some "Deep learning allows computational models.").

Definition refetchedBroken : CitationMetadata :=
  setDateAccessed emptyDateParts (accessedDate clock).

(** A note whose front matter carries the four required fields, and
    collaborators that read them. *)
Definition completeEnv (fetch : string -> Result (option CitationMetadata)) : Collaborators :=
  mkCollaborators (fun _ => Ok (Some lecun)) fetch.

(** Whether [createNote] writes the entry of a key, from the tests it makes
    on the record. *)
Definition keyWritten (m : CitationMetadata) (key : string) : bool :=
  if String.eqb key "tags" then true
  else if String.eqb key "authors" then Nat.ltb 0 (List.length (authorNames m))
  else if String.eqb key "Journal" then firstTruthy (container_title m)
  else if String.eqb key "Volume" then truthyStr (volume m)
  else if String.eqb key "Page" then truthyStr (page m)
  else if String.eqb key "Issue" then truthyStr (issue m)
  else if String.eqb key "Publication_Date" then isSome (firstDateParts m)
  else if String.eqb key "DOI" then truthyStr (DOI m)
  else if String.eqb key "Type" then truthyStr (type m)
  else if String.eqb key "URL" then truthyStr (URL m)
  else if String.eqb key "ISBN" then isSome (ISBN m)
  else String.eqb key "Date Accessed".

(** Vaults for the folder cases: every path a file; no folder and no way
    to create one. *)
Definition vaultFull : Vault := mkVault (fun _ => true) (fun _ => true) (fun _ => true).

Definition vaultNoFolder : Vault := mkVault (fun _ => false) (fun _ => false) (fun _ => false).

(** ** The fetch command *)

(** What the plugin reads of an HTTP response: [ok], [status], and of the
    JSON body the value of [data && data.message]. *)
Record Response : Type := mkResponse {
  ok : bool;
  status : Z;
  json : option RegistryMessage
}.

(** [fetchCrossrefData], over the registry's answer to the request for a
    DOI (the request itself may fail). *)
Definition fetchCrossrefDataFrom (registry : string -> Result Response) (doi : string)
  : Result (option RegistryMessage) :=
  response <- registry doi ;;
  if negb (ok response) then
    if Z.eqb (status response) 404 then Throw (Error ("DOI not found: " ++ doi))
    else Throw (Error ("HTTP error! status: " ++ numToString (status response)))
  else Ok (json response).

(** The callback of the command and of the ribbon icon: the file created,
    if any, and the notice the callback itself shows (the notices of
    [createNote] about the folder are not part of it).  [None] when the
    fuel of the path loop runs out. *)
Definition fetchCommand (fuel : nat) (registry : string -> Result Response) (vault : Vault)
           (settings : HappyRefSettings) (currentDate : Date) (doi : string)
  : option (option (string * string) * string) :=
  match fetchCrossrefDataFrom registry doi with
  | Throw error => Some (None, "Error fetching data: " ++ message error)
  | Ok None => Some (None, "Failed to fetch data or invalid DOI: " ++ doi)
  | Ok (Some data) =>
      match createNote fuel vault settings currentDate data with
      | None => None
      | Some (Throw error) => Some (None, "Error fetching data: " ++ message error)
      | Some (Ok created) => Some (Some created, "Successfully created and opened note")
      end
  end.

(** A registry that answers every request with the record whose
    ['date-parts'] is empty. *)
Definition brokenRegistry : string -> Result Response :=
  fun _ => Ok (mkResponse true 200 (Some (msgOf emptyDateParts))).

(** ** Path helpers of the scratchpad *)

(** The separators of [path.parse]: slash and backslash. *)
Definition isSep (c : ascii) : bool := Ascii.eqb c "/" || Ascii.eqb c "\".

Fixpoint hasSep (s : string) : bool :=
  match s with
  | EmptyString => false
  | String c r => isSep c || hasSep r
  end.

(** Whether the whole of [s] is segments, each at least one character that
    is no separator followed by one separator, and then characters that
    are no separators: what the expression of [path.parse] can match up to
    the end of the input.  [afterSep] tells that a separator may not come
    next. *)
Fixpoint cleanFrom (afterSep : bool) (s : string) : bool :=
  match s with
  | EmptyString => true
  | String c r =>
      if isSep c then negb afterSep && cleanFrom true r else cleanFrom false r
  end.

(** The text [match] finds: the expression is not anchored at the start, so
    it is the longest suffix that the expression matches as a whole. *)
Fixpoint matchedText (s : string) : string :=
  match s with
  | EmptyString => EmptyString
  | String _ r => if cleanFrom true s then s else matchedText r
  end.

(** The groups [dir] (up to and with the last separator) and [name] (what
    follows it) of a matched text. *)
Fixpoint dirGroup (s : string) : string :=
  match s with
  | EmptyString => EmptyString
  | String c r => if isSep c || hasSep r then String c (dirGroup r) else EmptyString
  end.

Fixpoint nameGroup (s : string) : string :=
  match s with
  | EmptyString => EmptyString
  | String c r => if isSep c || hasSep r then nameGroup r else s
  end.

Record ParsedPath : Type := mkParsedPath {
  dir : string;
  name : string
}.

(** [path.parse] *)
Definition parse (pathString : string) : ParsedPath :=
  let matched := matchedText pathString in
  mkParsedPath (dirGroup matched) (orElse (nameGroup matched) "Untitled").

(** [s.split('/')] *)
Fixpoint splitSlashAcc (cur : string) (s : string) : list string :=
  match s with
  | EmptyString => [cur]
  | String c s' =>
      if Ascii.eqb c "/" then cur :: splitSlashAcc EmptyString s'
      else splitSlashAcc (cur ++ String c EmptyString) s'
  end.

Definition splitSlash (s : string) : list string := splitSlashAcc EmptyString s.

(** The parts of a normalized path that are not blank. *)
Definition pathParts (normalized : string) : list string :=
  filter (fun part => nonEmpty (trim part)) (splitSlash normalized).

(** [subPaths] of [createDirectory], from the normalized directory path:
    for every part, the parts up to it joined by slashes. *)
Definition subPaths (normalized : string) : list string :=
  let arr := pathParts normalized in
  mapi (fun _ index => join "/" (firstn (index + 1) arr)) arr.

Definition startsWithSep (s : string) : bool :=
  match s with String c _ => isSep c | EmptyString => false end.

(** * Properties *)

(** ** The primitives on small inputs *)

Example replaceAll_non_overlapping : replaceAll "ab" "X" "cababab!" = "cXXX!".
Proof. reflexivity. Qed.

Example numbers_and_padding :
  numToString 2015 = "2015" /\ natToString 0 = "0" /\ padStart 2 "0" "7" = "07"
  /\ padStart 2 "0" "11" = "11".
Proof. repeat split. Qed.

Example substitution_patterns :
  getSubstitution "M" "B" "A" ["g1"; "g2"; "g3"] "$1x$$y$&z$12$4$`$'$"
  = "g1x$yMzg12$4BA$".
Proof. reflexivity. Qed.

Example json_of_names :
  jsonStringifyStrings ["Yann LeCun"; "a\b"]
  = "[" ++ dquote ++ "Yann LeCun" ++ dquote ++ "," ++ dquote ++ "a\\b" ++ dquote ++ "]".
Proof. reflexivity. Qed.

Example harvard_lecun :
  formatCitation Harvard lecun = Ok harvardText
  /\ formatCitation Vancouver lecun
     = Ok "LeCun Y. Deep Learning. Nature. 2015; Available from: [https://doi.org/10.1/x].".
Proof. split; reflexivity. Qed.

Example trailing_slashes : trimTrailingSlashes "a/b//" = "a/b" /\ trimTrailingSlashes "//" = "".
Proof. split; reflexivity. Qed.

(** ** Strings *)

Lemma append_nil_r (s : string) : s ++ "" = s.
Proof. induction s as [|c s IH]; simpl; [reflexivity | now rewrite IH]. Qed.

Lemma append_assoc (a b c : string) : (a ++ b) ++ c = a ++ b ++ c.
Proof. induction a as [|x a IH]; simpl; [reflexivity | now rewrite IH]. Qed.

Lemma length_append (a b : string) :
  String.length (a ++ b) = String.length a + String.length b.
Proof. induction a as [|x a IH]; simpl; [reflexivity | now rewrite IH]. Qed.


Lemma stripPrefix_app (p r : string) : stripPrefix p (p ++ r) = Some r.
Proof.
  induction p as [|c p IH]; simpl; [reflexivity|].
  now rewrite Ascii.eqb_refl.
Qed.

Lemma stripPrefix_Some (p s r : string) : stripPrefix p s = Some r -> s = p ++ r.
Proof.
  revert s; induction p as [|c p IH]; intros s H; simpl in H.
  - now inversion H.
  - destruct s as [|d s]; [discriminate|].
    destruct (Ascii.eqb c d) eqn:E; [|discriminate].
    apply Ascii.eqb_eq in E; subst d. simpl. f_equal. now apply IH.
Qed.

Lemma splitAtFirst_Some (p s a b : string) :
  splitAtFirst p s = Some (a, b) -> s = a ++ p ++ b.
Proof.
  revert a; induction s as [|c s IH]; intros a H; simpl in H.
  - destruct (stripPrefix p "") eqn:E; [|discriminate].
    inversion H; subst. now apply stripPrefix_Some in E.
  - destruct (stripPrefix p (String c s)) eqn:E.
    + inversion H; subst. now apply stripPrefix_Some in E.
    + destruct (splitAtFirst p s) as [[a' b']|] eqn:E'; [|discriminate].
      inversion H; subst. simpl. f_equal. now apply IH.
Qed.

(** A text that contains the pattern is split at some occurrence. *)
Lemma splitAtFirst_found (p a b : string) :
  exists a' b', splitAtFirst p (a ++ p ++ b) = Some (a', b').
Proof.
  induction a as [|c a [a' [b' IH]]]; simpl.
  - destruct (p ++ b) as [|c s] eqn:E; simpl;
      rewrite <- E, stripPrefix_app; eauto.
  - destruct (stripPrefix p (String c (a ++ p ++ b))); [eauto|].
    rewrite IH. eauto.
Qed.

(** A pattern at the very start is the first occurrence. *)
Lemma splitAtFirst_prefix (p r : string) : splitAtFirst p (p ++ r) = Some ("", r).
Proof.
  destruct (p ++ r) as [|c s] eqn:E; simpl; rewrite <- E, stripPrefix_app; reflexivity.
Qed.

(** ** Citation formatter *)

Ltac fmt_unfold :=
  unfold formatCitation, formatHarvardCitation, formatVancouverCitation,
    formatAPACitation, formatChicagoCitation, formatAMACitation, formatAPCitation,
    formatCanadianCitation, formatOxfordReferenceCitation.

(** With a field of the guard absent every formatter returns its
    missing-data diagnostic. *)
Lemma missing_field_diagnostic (style : CitationStyle) (m : CitationMetadata) :
  author m = None \/ issued m = None \/ title m = None \/ container_title m = None ->
  style <> NoStyle ->
  formatCitation style m = Ok (missingData style).
Proof.
  intros H Hs.
  destruct style; try congruence; fmt_unfold;
    destruct (author m), (issued m), (title m), (container_title m);
    try reflexivity; destruct H as [H | [H | [H | H]]]; discriminate.
Qed.

(** Past the guard, a formatter throws exactly when ['date-parts'] has no
    first element. *)
Lemma formatter_throws (style : CitationStyle) (m : CitationMetadata)
      (a : list Author) (d : DateField) (t c : list string) :
  author m = Some a -> issued m = Some d -> title m = Some t -> container_title m = Some c ->
  date_parts d = None \/ date_parts d = Some [] ->
  style <> NoStyle ->
  formatCitation style m = Throw readOfUndefined.
Proof.
  intros Ha Hd Ht Hc Hp Hs.
  destruct style; try congruence; fmt_unfold; rewrite Ha, Hd, Ht, Hc;
    unfold issuedYear; destruct Hp as [-> | ->]; reflexivity.
Qed.

Lemma missing_year_diagnostic (style : CitationStyle) (m : CitationMetadata)
      (a : list Author) (d : DateField) (t c : list string) (first : list Z) (rest : list (list Z)) :
  author m = Some a -> issued m = Some d -> title m = Some t -> container_title m = Some c ->
  date_parts d = Some (first :: rest) ->
  truthyNum (hd_error first) = false ->
  style <> NoStyle ->
  formatCitation style m = Ok (missingYearData style).
Proof.
  intros Ha Hd Ht Hc Hp Hy Hs.
  destruct style; try congruence; fmt_unfold; rewrite Ha, Hd, Ht, Hc;
    unfold issuedYear; rewrite Hp; cbn [Js.bind]; rewrite Hy; reflexivity.
Qed.

(** A formatter returns whenever [issued], if present, has a first
    date-parts element. *)
Lemma formatter_returns (style : CitationStyle) (m : CitationMetadata) :
  (forall d, issued m = Some d -> exists first rest, date_parts d = Some (first :: rest)) ->
  exists s, formatCitation style m = Ok s.
Proof.
  intros H.
  destruct style; fmt_unfold; try (eexists; reflexivity);
    destruct (author m), (issued m) as [d|], (title m), (container_title m);
    try (eexists; reflexivity);
    destruct (H d eq_refl) as [first [rest Hp]];
    unfold issuedYear; rewrite Hp; cbn [Js.bind];
    destruct (negb (truthyNum (hd_error first))); eexists; reflexivity.
Qed.




(** C1.  The citation formatter does not return for every record: with
    [author], [issued], [title] and [container-title] present and an
    [issued] whose ['date-parts'] is empty or absent, each of the eight
    formatters (and the first revision's Harvard one) ends in the
    [TypeError] of reading index 0 of [undefined]. *)
Theorem C1_formatter_throws_without_first_date_part :
  Forall (fun style =>
            formatCitation style emptyDateParts = Throw readOfUndefined
            /\ formatCitation style absentDateParts = Throw readOfUndefined)
         formatterStyles
  /\ (forall monthName currentDate,
         Rev1.formatHarvardCitation monthName currentDate emptyDateParts
         = Throw readOfUndefined).
Proof.
  split.
  - repeat constructor.
  - reflexivity.
Qed.

(** C2.  For every record in which [author], [issued], [title] or
    [container-title] is absent, the formatter of every style returns the
    literal diagnostic "Could not generate <Style> citation due to missing
    data." (the Oxford formatter calls its style "Oxford Reference"), and so
    a string that starts with "Could not generate"; it does not throw. *)
Theorem C2_missing_data_diagnostic (style : CitationStyle) (m : CitationMetadata) :
  author m = None \/ issued m = None \/ title m = None \/ container_title m = None ->
  style <> NoStyle ->
  formatCitation style m
  = Ok ("Could not generate " ++ styleLabel style ++ " citation due to missing data.")
  /\ stripPrefix "Could not generate" (missingData style)
     = Some (" " ++ styleLabel style ++ " citation due to missing data.").
Proof.
  intros H Hs. split.
  - now apply missing_field_diagnostic.
  - reflexivity.
Qed.

Lemma C2_witness :
  formatCitation Oxford emptyMetadata
  = Ok "Could not generate Oxford Reference citation due to missing data."
  /\ stripPrefix "Could not generate" (missingData Oxford)
     = Some " Oxford Reference citation due to missing data.".
Proof.
  apply (C2_missing_data_diagnostic Oxford emptyMetadata).
  - left; reflexivity.
  - discriminate.
Defined.

(** C4.  The abstract
    "<jats:title>Abstract</jats:title><jats:p>Text</jats:p>" is rendered as
    "undefinedText", not as "Text": the first [replaceAll] has no
    replacement argument, so the title marker becomes the word
    [undefined]. *)
Theorem C4_jats_abstract_renders_undefinedText :
  sanitizeAbstract "<jats:title>Abstract</jats:title><jats:p>Text</jats:p>" = "undefinedText"
  /\ abstractSection jatsAbstract = "## Abstract" ++ nl ++ "undefinedText" ++ nl
  /\ abstractSection lecun
     = "## Abstract" ++ nl ++ "*There is no abstract in this citation's metadata*" ++ nl.
Proof. repeat split. Qed.

(** C8.  With the four guarded fields present, the year-specific diagnostic
    is returned when the first ['date-parts'] element exists and has no
    year, but not when ['date-parts'] is empty: there the formatter of
    every style throws instead of reporting the missing year. *)
Theorem C8_empty_date_parts_gives_no_year_diagnostic :
  Forall (fun style =>
            formatCitation style emptyFirstDatePart = Ok (missingYearData style)
            /\ formatCitation style emptyDateParts = Throw readOfUndefined)
         formatterStyles.
Proof. repeat constructor. Qed.


(** ** Collision-avoiding path loop *)

Lemma resolveLoop_first_free (vault : Vault) (folderPath base : string) :
  forall (n fuel : nat) (filePath : string) (suffix : nat),
    n < fuel ->
    (forall k, k < n -> isFile vault (pathAt folderPath base filePath suffix k) = true) ->
    isFile vault (pathAt folderPath base filePath suffix n) = false ->
    resolveLoop fuel vault folderPath base filePath suffix
    = Some (pathAt folderPath base filePath suffix n).
Proof.
  induction n as [|n IH]; intros [|fuel] filePath suffix Hfuel Hall Hfree; try lia; simpl.
  - simpl in Hfree. now rewrite Hfree.
  - pose proof (Hall 0 ltac:(lia)) as H0. simpl in H0. rewrite H0.
    rewrite (IH fuel (suffixedPath folderPath base suffix) (S suffix)).
    + destruct n; simpl; [now rewrite Nat.add_0_r | now rewrite Nat.add_succ_r].
    + lia.
    + intros k Hk. specialize (Hall (S k) ltac:(lia)). simpl in Hall.
      destruct k; simpl; [now rewrite Nat.add_0_r in Hall | now rewrite Nat.add_succ_r in Hall].
    + simpl in Hfree.
      destruct n; simpl; [now rewrite Nat.add_0_r in Hfree | now rewrite Nat.add_succ_r in Hfree].
Qed.

Lemma candidate_pathAt (vault : Vault) (folder base : string) (n : nat) :
  candidate vault folder base n
  = pathAt (fst (initialPath vault folder base)) base
           (snd (initialPath vault folder base)) 1 n.
Proof. destruct n; reflexivity. Qed.

Lemma allSlashes_trim (s : string) :
  allSlashes s = false -> allSlashes (trimTrailingSlashes s) = false.
Proof.
  induction s as [|c s IH]; intros H; [discriminate|].
  cbn [trimTrailingSlashes]. rewrite H. cbn [allSlashes] in *.
  destruct (Ascii.eqb c "/"); [|reflexivity]. simpl in *. now apply IH.
Qed.

Lemma trimTrailingSlashes_idem (s : string) :
  trimTrailingSlashes (trimTrailingSlashes s) = trimTrailingSlashes s.
Proof.
  induction s as [|c s IH]; [reflexivity|].
  cbn [trimTrailingSlashes]. destruct (allSlashes (String c s)) eqn:E; [reflexivity|].
  cbn [trimTrailingSlashes]. rewrite IH.
  replace (allSlashes (String c (trimTrailingSlashes s))) with false; [reflexivity|].
  symmetry. cbn [allSlashes] in *. destruct (Ascii.eqb c "/"); [|reflexivity].
  simpl in *. now apply allSlashes_trim.
Qed.

(** The paths tried in the root folder and in a folder that exists or can
    be created: [base.md] and [dir/base.md], then the suffixed names. *)
Lemma candidate_root (vault : Vault) (base : string) (n : nat) :
  candidate vault "" base 0 = base ++ ".md"
  /\ candidate vault "" base (S n) = (base ++ " (" ++ natToString (S n) ++ ")") ++ ".md".
Proof. split; reflexivity. Qed.

Lemma candidate_in_folder (vault : Vault) (folder base : string) (n : nat) :
  let dir := trimTrailingSlashes folder in
  nonEmpty dir = true ->
  hasEntry vault dir || createFolderOk vault dir = true ->
  candidate vault folder base 0 = dir ++ "/" ++ base ++ ".md"
  /\ candidate vault folder base (S n)
     = dir ++ "/" ++ (base ++ " (" ++ natToString (S n) ++ ")") ++ ".md".
Proof.
  intros dir Hdir Hok. subst dir.
  assert (Hf : nonEmpty folder = true) by (destruct folder; [discriminate | reflexivity]).
  unfold candidate, initialPath. rewrite Hf.
  assert (Hsel : (if hasEntry vault (trimTrailingSlashes folder)
                  then trimTrailingSlashes folder
                  else if createFolderOk vault (trimTrailingSlashes folder)
                       then trimTrailingSlashes folder else "")
                 = trimTrailingSlashes folder).
  { destruct (hasEntry vault (trimTrailingSlashes folder)); [reflexivity|].
    simpl in Hok. now rewrite Hok. }
  rewrite Hsel. cbn [fst snd]. split; [reflexivity|].
  unfold suffixedPath. now rewrite Hdir, trimTrailingSlashes_idem.
Qed.

(** What the loop returns is a path it tried, not a file, after paths that
    all were files; and with every path taken it returns for no fuel. *)
Lemma resolveLoop_sound (vault : Vault) (folderPath base : string) :
  forall (fuel : nat) (filePath : string) (suffix : nat) (p : string),
    resolveLoop fuel vault folderPath base filePath suffix = Some p ->
    exists n, n < fuel
              /\ p = pathAt folderPath base filePath suffix n
              /\ isFile vault p = false
              /\ forall k, k < n -> isFile vault (pathAt folderPath base filePath suffix k) = true.
Proof.
  induction fuel as [|fuel IH]; intros filePath suffix p H; simpl in H; [discriminate|].
  destruct (isFile vault filePath) eqn:E.
  - apply IH in H. destruct H as [n [Hn [Hp [Hfree Hall]]]].
    exists (S n). repeat split.
    + lia.
    + rewrite Hp. destruct n; simpl; [now rewrite Nat.add_0_r | now rewrite Nat.add_succ_r].
    + exact Hfree.
    + intros [|k] Hk; [exact E|].
      specialize (Hall k ltac:(lia)). simpl.
      destruct k; simpl in Hall; [now rewrite Nat.add_0_r | now rewrite Nat.add_succ_r].
  - inversion H; subst. exists 0. repeat split; [lia | exact E | intros k Hk; lia].
Qed.

Lemma resolvePath_sound (vault : Vault) (folder base : string) (fuel : nat) (p : string) :
  resolvePath fuel vault folder base = Some p ->
  exists n, p = candidate vault folder base n
            /\ isFile vault p = false
            /\ forall k, k < n -> isFile vault (candidate vault folder base k) = true.
Proof.
  unfold resolvePath. intros H.
  destruct (initialPath vault folder base) as [folderPath filePath] eqn:E.
  apply resolveLoop_sound in H. destruct H as [n [_ [Hp [Hfree Hall]]]].
  exists n. repeat split.
  - now rewrite candidate_pathAt, E.
  - exact Hfree.
  - intros k Hk. rewrite candidate_pathAt, E. now apply Hall.
Qed.

Lemma resolvePath_all_taken (vault : Vault) (folder base : string) :
  (forall k, isFile vault (candidate vault folder base k) = true) ->
  forall fuel, resolvePath fuel vault folder base = None.
Proof.
  intros Hall fuel.
  destruct (resolvePath fuel vault folder base) as [p|] eqn:E; [|reflexivity].
  apply resolvePath_sound in E. destruct E as [n [Hp [Hfree _]]].
  rewrite Hp, Hall in Hfree. discriminate.
Qed.



(** ** Front-matter match and citation section *)

Lemma frontmatterMatch_Some (fileContent group1 contentBody : string) :
  frontmatterMatch fileContent = Some (group1, contentBody) ->
  fileContent = "---" ++ group1 ++ "---" ++ contentBody.
Proof.
  unfold frontmatterMatch. intros H.
  destruct (stripPrefix "---" fileContent) as [rest|] eqn:E; [|discriminate].
  apply stripPrefix_Some in E. apply splitAtFirst_Some in H. now subst.
Qed.

Lemma citationSectionMatch_Some (contentBody before group2 after : string) :
  citationSectionMatch contentBody = Some (before, group2, after) ->
  contentBody = before ++ citationHeading ++ group2 ++ fenceLine ++ after.
Proof.
  unfold citationSectionMatch. intros H.
  destruct (splitAtFirst citationHeading contentBody) as [[b rest]|] eqn:E; [|discriminate].
  destruct (splitAtFirst fenceLine rest) as [[g a]|] eqn:E'; [|discriminate].
  inversion H; subst. apply splitAtFirst_Some in E, E'. now subst.
Qed.

(** [$1] at the head of the template stands for the heading, whatever
    follows it: a following digit would make an index above the three
    groups, which falls back to the one-digit reading. *)
Lemma getSubstitution_group1 (matched before after h g f tpl : string) :
  getSubstitution matched before after [h; g; f] ("$1" ++ tpl)
  = h ++ getSubstitution matched before after [h; g; f] tpl.
Proof.
  destruct tpl as [|d2 r2]; [reflexivity|].
  change ("$1" ++ String d2 r2) with (String "$" (String "1" (String d2 r2))).
  cbn [getSubstitution]. cbn [Ascii.eqb Bool.eqb negb isDigit nat_of_ascii].
  cbn. destruct (isDigit d2); reflexivity.
Qed.

Lemma replaceCitationSection_replaced (contentBody citationText before group2 after : string) :
  citationSectionMatch contentBody = Some (before, group2, after) ->
  replaceCitationSection contentBody citationText
  = before ++ citationHeading
    ++ getSubstitution (citationHeading ++ group2 ++ fenceLine) before after
                       [citationHeading; group2; fenceLine]
                       (citationText ++ nl ++ nl ++ "---")
    ++ after.
Proof.
  intros H. unfold replaceCitationSection. rewrite H.
  now rewrite getSubstitution_group1, append_assoc.
Qed.

Lemma replaceCitationSection_appended (contentBody citationText : string) :
  citationSectionMatch contentBody = None ->
  replaceCitationSection contentBody citationText
  = contentBody ++ nl ++ "## Citation" ++ nl ++ citationText ++ nl ++ nl ++ "---".
Proof. intros H. unfold replaceCitationSection. now rewrite H. Qed.

Lemma keep_app (y e t : string) : (exists x, e = x ++ t) -> exists x, y ++ e = x ++ t.
Proof. intros [x ->]. exists (y ++ x). now rewrite append_assoc. Qed.

Lemma keep_cons (c : ascii) (e t : string) :
  (exists x, e = x ++ t) -> exists x, String c e = x ++ t.
Proof. intros [x ->]. now exists (String c x). Qed.

Ltac leaf IH :=
  first [ eexists; reflexivity
        | apply keep_cons; leaf IH
        | apply keep_app; leaf IH
        | apply IH; simpl in *; lia ].

(** Whatever dollar patterns the citation text holds, the expansion of the
    template still ends with the blank line and the fence: a line feed
    completes no pattern. *)
Lemma getSubstitution_keeps_tail (matched before after : string) (captures : list string) :
  forall n tpl, String.length tpl <= n ->
    exists x, getSubstitution matched before after captures (tpl ++ fenceTail)
              = x ++ fenceTail.
Proof.
  induction n as [|n IH]; intros t Hlen.
  - destruct t; [exists ""; reflexivity | simpl in Hlen; lia].
  - destruct t as [|c r]; [exists ""; reflexivity|].
    simpl in Hlen.
    change (String c r ++ fenceTail) with (String c (r ++ fenceTail)).
    cbn [getSubstitution].
    destruct (Ascii.eqb c "$") eqn:Ec; cbn [negb].
    2:{ apply keep_cons, IH. lia. }
    destruct r as [|d r1].
    + exists (String c ""). reflexivity.
    + simpl in Hlen. change (String d r1 ++ fenceTail) with (String d (r1 ++ fenceTail)).
      cbn iota.
      destruct (IH r1 ltac:(lia)) as [x1 H1]. rewrite H1.
      destruct (Ascii.eqb d "$"); [leaf IH|].
      destruct (Ascii.eqb d "&"); [leaf IH|].
      destruct (Ascii.eqb d "`"); [leaf IH|].
      destruct (Ascii.eqb d "'"); [leaf IH|].
      destruct (isDigit d).
      2:{ apply keep_cons.
          change (String d (r1 ++ fenceTail)) with (String d r1 ++ fenceTail).
          apply IH. simpl. lia. }
      destruct r1 as [|d2 r2].
      * replace ("" ++ fenceTail) with (String "010"%char (nl ++ "---")) by reflexivity.
        cbn iota. change (isDigit "010"%char) with false. cbn iota.
        destruct (validIndex captures (digitVal d)); leaf IH.
      * simpl in Hlen. cbn [append]. cbn iota.
        destruct (isDigit d2);
          [destruct (Nat.ltb (List.length captures) (10 * digitVal d + digitVal d2));
           [|destruct (validIndex captures (10 * digitVal d + digitVal d2))]|];
          try destruct (validIndex captures (digitVal d)); leaf IH.
Qed.

Lemma getSubstitution_dollarFree (matched before after : string) (captures : list string)
      (tpl : string) :
  dollarFree tpl = true -> getSubstitution matched before after captures tpl = tpl.
Proof.
  induction tpl as [|c r IH]; [reflexivity|]. cbn [dollarFree getSubstitution].
  intros H. apply andb_true_iff in H as [Hc Hr]. rewrite Hc. f_equal. now apply IH.
Qed.

Lemma dollarFree_app (a b : string) :
  dollarFree a = true -> dollarFree b = true -> dollarFree (a ++ b) = true.
Proof.
  induction a as [|c a IH]; simpl; [auto|].
  intros H Hb. apply andb_true_iff in H as [Hc Ha]. rewrite Hc. now apply IH.
Qed.

(** The frame of the replacement, on the body.  With a citation section,
    the text before the heading, the heading, the fence that ends the
    section and the text after it stay; only the text between heading and
    fence changes.  Without one, the body stays and a section follows it. *)
Lemma replaceCitationSection_frame (contentBody citationText before group2 after : string) :
  citationSectionMatch contentBody = Some (before, group2, after) ->
  contentBody = before ++ citationHeading ++ group2 ++ fenceLine ++ after
  /\ exists inside,
      replaceCitationSection contentBody citationText
      = before ++ citationHeading ++ inside ++ fenceLine ++ after.
Proof.
  intros H. split; [now apply citationSectionMatch_Some|].
  rewrite (replaceCitationSection_replaced _ _ _ _ _ H).
  destruct (getSubstitution_keeps_tail (citationHeading ++ group2 ++ fenceLine) before after
              [citationHeading; group2; fenceLine] (String.length citationText)
              citationText (le_n _)) as [x Hx].
  change (citationText ++ nl ++ nl ++ "---") with (citationText ++ fenceTail).
  rewrite Hx. exists (x ++ nl).
  unfold fenceTail, fenceLine. now rewrite !append_assoc.
Qed.

Lemma replaceCitationSection_plain (contentBody citationText before group2 after : string) :
  citationSectionMatch contentBody = Some (before, group2, after) ->
  dollarFree citationText = true ->
  replaceCitationSection contentBody citationText
  = before ++ citationHeading ++ (citationText ++ nl) ++ fenceLine ++ after.
Proof.
  intros H Hd. rewrite (replaceCitationSection_replaced _ _ _ _ _ H).
  rewrite getSubstitution_dollarFree by (apply dollarFree_app; [exact Hd | reflexivity]).
  unfold fenceLine. now rewrite !append_assoc.
Qed.

(** Whatever the body, replacing with the empty citation text leaves a
    [## Citation] heading in it. *)
Lemma replaceCitationSection_empty_has_heading (contentBody : string) :
  exists a b, replaceCitationSection contentBody "" = a ++ citationHeading ++ b.
Proof.
  destruct (citationSectionMatch contentBody) as [[[before group2] after]|] eqn:E.
  - rewrite (replaceCitationSection_replaced _ _ _ _ _ E). eauto.
  - rewrite (replaceCitationSection_appended _ _ E).
    exists (contentBody ++ nl), (nl ++ nl ++ "---").
    now rewrite !append_assoc.
Qed.

(** A successful style change: the file read was a fenced block and a
    body; the file written is the block between fences that each gained a
    line feed, followed by the body with its citation section replaced. *)
Lemma changeCitationStyle_success (env : Collaborators) (currentDate : Date)
      (fileContent written : string) (newStyle : CitationStyle) :
  changeCitationStyle env currentDate fileContent newStyle = (written, Ok tt) ->
  exists group1 contentBody citationMetadata citationText,
    fileContent = "---" ++ group1 ++ "---" ++ contentBody
    /\ formatCitation newStyle citationMetadata = Ok citationText
    /\ written = "---" ++ nl ++ group1 ++ "---" ++ nl
                 ++ replaceCitationSection contentBody citationText.
Proof.
  unfold changeCitationStyle. intros H.
  destruct (frontmatterMatch fileContent) as [[group1 contentBody]|] eqn:E; [|discriminate].
  apply frontmatterMatch_Some in E.
  destruct (yamlLoad env group1) as [loaded|e]; [|discriminate].
  destruct (if metadataComplete (frontmatterObject loaded) then _ else _) as [file1 [m|e]];
    [|discriminate].
  destruct (formatCitation newStyle m) as [citationText|e] eqn:F; [|discriminate].
  inversion H; subst. exists group1, contentBody, m, citationText. auto.
Qed.

Lemma style_none_keeps_heading (env : Collaborators) (currentDate : Date)
      (fileContent written : string) :
  changeCitationStyle env currentDate fileContent NoStyle = (written, Ok tt) ->
  exists a b, written = a ++ citationHeading ++ b.
Proof.
  intros H. apply changeCitationStyle_success in H.
  destruct H as [group1 [contentBody [m [text [_ [F ->]]]]]].
  simpl in F. inversion F; subst text.
  destruct (replaceCitationSection_empty_has_heading contentBody) as [a [b ->]].
  exists ("---" ++ nl ++ group1 ++ "---" ++ nl ++ a), b.
  now rewrite !append_assoc.
Qed.

(** Without a style the note renderer writes no citation section. *)
Lemma createNote_none_has_no_section (currentDate : Date) (m : CitationMetadata)
      (folder : string) (f : FileNameStyle) :
  createNoteContent (mkSettings folder NoStyle f) currentDate m
  = Ok (createNoteFrontmatter currentDate m ++ titleHeading m ++ abstractSection m).
Proof.
  unfold createNoteContent. simpl. now rewrite append_nil_r, append_assoc.
Qed.

(** C3.  The style [None] gives the empty citation text in both
    operations, and [createNote] then writes no [## Citation] heading; the
    style change does not suppress it: on a note without a citation section
    it appends an empty one, and on a note with one it leaves the heading
    over an emptied section. *)
Theorem C3_style_change_to_none_emits_empty_section :
  (forall m, formatCitation NoStyle m = Ok "")
  /\ noteOf NoStyle lecun = "---" ++ sampleBlock ++ "---" ++ sampleHeading ++ sampleAbstract
  /\ changeCitationStyle sampleEnv clock (noteOf NoStyle lecun) NoStyle
     = ("---" ++ nl ++ sampleBlock ++ "---" ++ nl ++ sampleHeading ++ sampleAbstract
        ++ nl ++ "## Citation" ++ nl ++ nl ++ nl ++ "---", Ok tt)
  /\ changeCitationStyle sampleEnv clock (noteOf Harvard lecun) NoStyle
     = ("---" ++ nl ++ sampleBlock ++ "---" ++ nl ++ sampleBody "", Ok tt).
Proof. repeat split. Qed.

(** C6.  A style change does not leave every byte outside the citation
    section as it was: the rewritten note has a line feed more after the
    opening fence and after the closing fence of the metadata block. *)
Theorem C6_style_change_alters_metadata_block :
  noteOf Harvard lecun = "---" ++ sampleBlock ++ "---" ++ sampleBody harvardText
  /\ changeCitationStyle sampleEnv clock (noteOf Harvard lecun) APA
     = ("---" ++ nl ++ sampleBlock ++ "---" ++ nl ++ sampleBody apaText, Ok tt).
Proof. split; reflexivity. Qed.

(** ** Front matter: entries, keys and the round trip *)

Lemma entryLines_app (a b : list (string * string)) :
  entryLines (a ++ b) = entryLines a ++ entryLines b.
Proof.
  induction a as [|e a IH]; simpl; [reflexivity|].
  now rewrite IH, append_assoc.
Qed.

Lemma if_append (c : bool) (a x : string) :
  (if c then a ++ x else a) = a ++ (if c then x else "").
Proof. destruct c; [reflexivity | now rewrite append_nil_r]. Qed.

Lemma option_append {A : Type} (o : option A) (a : string) (f : A -> string) :
  match o with Some v => a ++ f v | None => a end
  = a ++ match o with Some v => f v | None => "" end.
Proof. destruct o; [reflexivity | now rewrite append_nil_r]. Qed.

Lemma entryLines_if (c : bool) (e : string * string) :
  entryLines (if c then [e] else []) = if c then entryLine e else "".
Proof. destruct c; simpl; [apply append_nil_r | reflexivity]. Qed.

Lemma entryLines_option {A : Type} (o : option A) (f : A -> string * string) :
  entryLines (match o with Some v => [f v] | None => [] end)
  = match o with Some v => entryLine (f v) | None => "" end.
Proof. destruct o; simpl; [apply append_nil_r | reflexivity]. Qed.

Lemma entryLines_entryWhen (key : string) (o : option string) :
  entryLines (entryWhen key o) = whenStr o (fun v => key ++ ": " ++ v ++ nl).
Proof. destruct o as [[|c r]|]; simpl; try reflexivity. apply append_nil_r. Qed.

Lemma entryLines_one (e : string * string) : entryLines [e] = entryLine e.
Proof. simpl. apply append_nil_r. Qed.

(** The front matter [createNote] writes is its entries, one per line,
    between the fences. *)
Lemma createNoteFrontmatter_entries (currentDate : Date) (m : CitationMetadata) :
  createNoteFrontmatter currentDate m
  = "---" ++ nl ++ entryLines (frontmatterEntries currentDate m) ++ "---" ++ nl ++ nl.
Proof.
  unfold createNoteFrontmatter, frontmatterEntries.
  rewrite !if_append, !option_append, !append_assoc.
  rewrite !entryLines_app, !append_assoc.
  rewrite !entryLines_if, !entryLines_option, !entryLines_entryWhen, !entryLines_one.
  unfold entryLine. cbn [fst snd]. rewrite !append_assoc. cbn [append]. reflexivity.
Qed.

Lemma newFrontmatterString_entries (currentDate : Date) (m : CitationMetadata) :
  newFrontmatterString currentDate m
  = "---" ++ nl ++ entryLines (rewrittenEntries currentDate m) ++ "---".
Proof.
  unfold newFrontmatterString, rewrittenEntries.
  destruct (author m) as [[|a rest]|], (truthyStr (date_accessed m));
    rewrite !entryLines_app, ?entryLines_one, ?entryLines_if, ?entryLines_option,
      ?entryLines_entryWhen;
    rewrite ?if_append, ?option_append; unfold entryLine; cbn [fst snd entryLines];
    rewrite ?append_assoc, ?append_nil_r; cbn [append]; reflexivity.
Qed.

(** Where the two emitters agree: the ISBN line (the renderer writes one
    for every present [ISBN], the rewriter only for a truthy first element)
    and the access date (the renderer stamps the clock, the rewriter keeps
    a truthy [date-accessed]). *)
Lemma entries_agree (currentDate : Date) (m : CitationMetadata) :
  ISBN m = None \/ firstTruthy (ISBN m) = true ->
  truthyStr (date_accessed m) = false \/ date_accessed m = Some (accessedDate currentDate) ->
  frontmatterEntries currentDate m = rewrittenEntries currentDate m.
Proof.
  intros Hisbn Hdate. unfold frontmatterEntries, rewrittenEntries, authorNames.
  f_equal. f_equal.
  { destruct (author m) as [[|a rest]|]; reflexivity. }
  do 9 f_equal. f_equal.
  { destruct Hisbn as [-> | H]; [reflexivity|]. rewrite H.
    destruct (ISBN m); [reflexivity | discriminate]. }
  destruct Hdate as [-> | ->]; [reflexivity|].
  destruct (truthyStr (Some (accessedDate currentDate))); reflexivity.
Qed.

Lemma frontmatter_block_round_trip (currentDate : Date) (m : CitationMetadata) :
  ISBN m = None \/ firstTruthy (ISBN m) = true ->
  truthyStr (date_accessed m) = false \/ date_accessed m = Some (accessedDate currentDate) ->
  createNoteFrontmatter currentDate m = newFrontmatterString currentDate m ++ nl ++ nl.
Proof.
  intros Hisbn Hdate.
  rewrite createNoteFrontmatter_entries, newFrontmatterString_entries.
  rewrite (entries_agree currentDate m Hisbn Hdate).
  now rewrite !append_assoc.
Qed.

Lemma append_cancel_r (a b t : string) : a ++ t = b ++ t -> a = b.
Proof.
  revert b; induction a as [|c a IH]; intros [|d b] H; simpl in H.
  - reflexivity.
  - apply (f_equal String.length) in H. simpl in H. rewrite length_append in H. lia.
  - apply (f_equal String.length) in H. simpl in H. rewrite length_append in H. lia.
  - inversion H. f_equal. now apply IH.
Qed.

(** Rewriting a rendered note with the record it was rendered from changes
    nothing, when the two emitters agree on the record, the fence-delimited
    block found at the top of the note is the block the renderer wrote, and
    the block holds no dollar sign. *)
Lemma updateYAMLFrontmatter_round_trip (settings : HappyRefSettings) (currentDate : Date)
      (m : CitationMetadata) (note group1 contentBody : string) :
  createNoteContent settings currentDate m = Ok note ->
  ISBN m = None \/ firstTruthy (ISBN m) = true ->
  truthyStr (date_accessed m) = false \/ date_accessed m = Some (accessedDate currentDate) ->
  frontmatterMatch note = Some (group1, contentBody) ->
  "---" ++ group1 ++ "---" ++ nl ++ nl = createNoteFrontmatter currentDate m ->
  dollarFree (createNoteFrontmatter currentDate m) = true ->
  updateYAMLFrontmatter currentDate note m = note.
Proof.
  intros _ Hisbn Hdate Hmatch Hblock Hdollar.
  rewrite (frontmatter_block_round_trip currentDate m Hisbn Hdate) in Hblock, Hdollar.
  assert (Hfm : "---" ++ group1 ++ "---" = newFrontmatterString currentDate m).
  { apply (append_cancel_r _ _ (nl ++ nl)). now rewrite <- Hblock, !append_assoc. }
  assert (Hd : dollarFree (newFrontmatterString currentDate m) = true).
  { clear - Hdollar. induction (newFrontmatterString currentDate m) as [|c r IH];
      [reflexivity|]. simpl in *. apply andb_true_iff in Hdollar as [-> Hr]. now apply IH. }
  unfold updateYAMLFrontmatter. rewrite Hmatch.
  pose proof (frontmatterMatch_Some _ _ _ Hmatch) as Hnote.
  unfold replaceFirst.
  assert (Hsplit : splitAtFirst ("---" ++ group1 ++ "---") note = Some ("", contentBody)).
  { rewrite Hnote at 1.
    replace ("---" ++ group1 ++ "---" ++ contentBody)
      with (("---" ++ group1 ++ "---") ++ contentBody) by now rewrite !append_assoc.
    apply splitAtFirst_prefix. }
  rewrite Hsplit, getSubstitution_dollarFree by exact Hd.
  rewrite <- Hfm, Hnote. now rewrite !append_assoc.
Qed.

Example round_trip_sample :
  updateYAMLFrontmatter clock (noteOf Harvard lecun) lecun = noteOf Harvard lecun.
Proof. reflexivity. Qed.

(** C5.  Rendering and then rewriting with the same record on the same day
    does not always give the same metadata block: for a record whose [ISBN]
    array is empty the renderer writes the line [ISBN: undefined] and the
    rewriter writes no ISBN line. *)
Theorem C5_empty_isbn_breaks_round_trip :
  noteOf Harvard emptyISBN = "---" ++ sampleBlockISBN ++ "---" ++ sampleBody harvardText
  /\ updateYAMLFrontmatter clock (noteOf Harvard emptyISBN) emptyISBN
     = "---" ++ sampleBlock ++ "---" ++ sampleBody harvardText
  /\ createNoteFrontmatter clock emptyISBN <> newFrontmatterString clock emptyISBN ++ nl ++ nl.
Proof. repeat split. discriminate. Qed.

(** ** The completeness check on a rendered note *)






(** * Further properties *)

(** ** The file name *)

Example base_filenames :
  deriveBaseFilename ByTitle (msgOf lecun) = "Deep Learning"
  /\ deriveBaseFilename ByAuthorYear (msgOf lecun) = "LeCun (2015)"
  /\ deriveBaseFilename ByAuthor (msgOf lecun) = "LeCun"
  /\ trim "  a b  " = "a b" /\ sanitizeChars "a/b:c" = "a b c".
Proof. repeat split. Qed.

Lemma noForbidden_sanitizeChars (s : string) : noForbidden (sanitizeChars s) = true.
Proof.
  induction s as [|c r IH]; [reflexivity|]. simpl.
  destruct (isForbidden c) eqn:E; [exact IH | now rewrite E].
Qed.

Lemma noForbidden_trimStart (s : string) :
  noForbidden s = true -> noForbidden (trimStart s) = true.
Proof.
  induction s as [|c r IH]; [auto|]. intros H. simpl.
  destruct (isSpace c); [|exact H].
  simpl in H. apply andb_true_iff in H as [_ H]. now apply IH.
Qed.

Lemma noForbidden_trimEnd (s : string) :
  noForbidden s = true -> noForbidden (trimEnd s) = true.
Proof.
  induction s as [|c r IH]; [auto|]. intros H. cbn [trimEnd].
  destruct (allSpace (String c r)); [reflexivity|].
  simpl in *. apply andb_true_iff in H as [Hc H]. rewrite Hc. now apply IH.
Qed.

Lemma noForbidden_trim (s : string) : noForbidden s = true -> noForbidden (trim s) = true.
Proof. intros H. now apply noForbidden_trimEnd, noForbidden_trimStart. Qed.

Lemma startsWithSpace_trimStart (s : string) : startsWithSpace (trimStart s) = false.
Proof.
  induction s as [|c r IH]; [reflexivity|]. simpl.
  destruct (isSpace c) eqn:E; [exact IH | simpl; exact E].
Qed.

Lemma startsWithSpace_trimEnd (s : string) :
  startsWithSpace s = false -> startsWithSpace (trimEnd s) = false.
Proof.
  destruct s as [|c r]; [auto|]. intros H. cbn [trimEnd].
  destruct (allSpace (String c r)); [reflexivity | exact H].
Qed.

Lemma allSpace_endsWithSpace (s : string) :
  allSpace s = true -> nonEmpty s = true -> endsWithSpace s = true.
Proof.
  induction s as [|c r IH]; [discriminate|]. intros H _.
  simpl in H. apply andb_true_iff in H as [Hc Hr].
  destruct r as [|d r']; [exact Hc|]. now apply IH.
Qed.

Lemma endsWithSpace_trimEnd (s : string) : endsWithSpace (trimEnd s) = false.
Proof.
  induction s as [|c r IH]; [reflexivity|]. cbn [trimEnd].
  destruct (allSpace (String c r)) eqn:E; [reflexivity|].
  destruct r as [|d r'].
  - simpl in *. now rewrite andb_true_r in E.
  - cbn [trimEnd] in *. destruct (allSpace (String d r')) eqn:E'.
    + simpl in E. change (isSpace d && allSpace r') with (allSpace (String d r')) in E.
      rewrite E', andb_true_r in E. exact E.
    + exact IH.
Qed.

Lemma trimStart_id (s : string) : startsWithSpace s = false -> trimStart s = s.
Proof. destruct s as [|c r]; [auto|]. simpl. now intros ->. Qed.

Lemma trimEnd_id (s : string) : endsWithSpace s = false -> trimEnd s = s.
Proof.
  induction s as [|c r IH]; [auto|]. intros H. cbn [trimEnd].
  destruct (allSpace (String c r)) eqn:E.
  - rewrite (allSpace_endsWithSpace _ E eq_refl) in H. discriminate.
  - f_equal. apply IH. destruct r; [reflexivity | exact H].
Qed.

Lemma sanitizeChars_id (s : string) : noForbidden s = true -> sanitizeChars s = s.
Proof.
  induction s as [|c r IH]; [auto|]. simpl. intros H.
  apply andb_true_iff in H as [Hc Hr]. apply negb_true_iff in Hc.
  now rewrite Hc, IH.
Qed.

Lemma hasChar_app (x : ascii) (a b : string) :
  hasChar x (a ++ b) = hasChar x a || hasChar x b.
Proof.
  induction a as [|c a IH]; [reflexivity|]. simpl. now rewrite IH, orb_assoc.
Qed.

Lemma hasChar_sanitizeChars (x : ascii) (s : string) :
  isForbidden x = false -> hasChar x s = true -> hasChar x (sanitizeChars s) = true.
Proof.
  intros Hx. induction s as [|c r IH]; [auto|]. simpl. intros H.
  apply orb_true_iff in H as [H | H].
  - apply Ascii.eqb_eq in H; subst c. now rewrite Hx, Ascii.eqb_refl.
  - rewrite (IH H). apply orb_true_r.
Qed.

Lemma hasChar_allSpace (x : ascii) (s : string) :
  isSpace x = false -> allSpace s = true -> hasChar x s = false.
Proof.
  intros Hx. induction s as [|c r IH]; [auto|]. simpl. intros H.
  apply andb_true_iff in H as [Hc Hr]. rewrite (IH Hr), orb_false_r.
  apply Ascii.eqb_neq. intros ->. congruence.
Qed.

Lemma hasChar_trimStart (x : ascii) (s : string) :
  isSpace x = false -> hasChar x s = true -> hasChar x (trimStart s) = true.
Proof.
  intros Hx. induction s as [|c r IH]; [auto|]. simpl. intros H.
  destruct (isSpace c) eqn:E; [|exact H].
  apply orb_true_iff in H as [H | H]; [|now apply IH].
  apply Ascii.eqb_eq in H; subst c. congruence.
Qed.

Lemma hasChar_trimEnd (x : ascii) (s : string) :
  isSpace x = false -> hasChar x s = true -> hasChar x (trimEnd s) = true.
Proof.
  intros Hx. induction s as [|c r IH]; [auto|]. intros H. cbn [trimEnd].
  destruct (allSpace (String c r)) eqn:E.
  - rewrite (hasChar_allSpace x _ Hx E) in H. discriminate.
  - simpl in *. apply orb_true_iff in H as [H | H]; [now rewrite H|].
    rewrite (IH H). apply orb_true_r.
Qed.

Lemma hasChar_nonEmpty (x : ascii) (s : string) : hasChar x s = true -> nonEmpty s = true.
Proof. destruct s; [discriminate | reflexivity]. Qed.

(** A string that holds a character neither forbidden nor white keeps it
    through sanitizing and trimming. *)
Lemma hasChar_clean (x : ascii) (s : string) :
  isForbidden x = false -> isSpace x = false -> hasChar x s = true ->
  hasChar x (trim (sanitizeChars s)) = true.
Proof.
  intros Hf Hs H. unfold trim.
  now apply hasChar_trimEnd, hasChar_trimStart, hasChar_sanitizeChars.
Qed.

Lemma tidy_clean (s : string) : tidy (trim (sanitizeChars s)).
Proof.
  repeat split.
  - apply noForbidden_trim, noForbidden_sanitizeChars.
  - apply startsWithSpace_trimEnd, startsWithSpace_trimStart.
  - apply endsWithSpace_trimEnd.
Qed.

Lemma tidy_orElse (s fallback : string) :
  tidy s -> tidy fallback -> nonEmpty fallback = true ->
  tidy (orElse s fallback) /\ nonEmpty (orElse s fallback) = true.
Proof.
  intros Hs Hf Hn. unfold orElse. destruct (nonEmpty s) eqn:E; auto.
Qed.

Lemma deriveBaseFilename_invariants (style : FileNameStyle) (message : RegistryMessage) :
  nonEmpty (deriveBaseFilename style message) = true
  /\ noForbidden (deriveBaseFilename style message) = true
  /\ startsWithSpace (deriveBaseFilename style message) = false
  /\ endsWithSpace (deriveBaseFilename style message) = false.
Proof.
  assert (Hlit : forall s, tidy s /\ nonEmpty s = true ->
                           nonEmpty s = true /\ noForbidden s = true
                           /\ startsWithSpace s = false /\ endsWithSpace s = false).
  { intros s [[H1 [H2 H3]] H4]. auto. }
  assert (Hnote : tidy "Crossref Note") by (repeat split).
  destruct style; unfold deriveBaseFilename.
  - apply Hlit, tidy_orElse; [apply tidy_clean | exact Hnote | reflexivity].
  - destruct (author (record message)) as [[|firstAuthor others]|];
      try (repeat split; fail).
    apply Hlit, tidy_orElse; [apply tidy_clean | exact Hnote | reflexivity].
  - destruct (author (record message)) as [[|firstAuthor others]|];
      try (repeat split; fail).
    destruct (probeYear message) as [year|]; [|repeat split].
    apply Hlit. split; [apply tidy_clean|].
    apply (hasChar_nonEmpty ")"), hasChar_clean; try reflexivity.
    rewrite !hasChar_app. simpl. now rewrite !orb_true_r.
Qed.

(** X1.  Whatever the file-name style and the message, the base file name
    is not empty, holds none of the characters the file-name expression
    replaces, and has no white space at either end. *)
Theorem deriveBaseFilename_tidy (style : FileNameStyle) (message : RegistryMessage) :
  nonEmpty (deriveBaseFilename style message) = true
  /\ noForbidden (deriveBaseFilename style message) = true
  /\ startsWithSpace (deriveBaseFilename style message) = false
  /\ endsWithSpace (deriveBaseFilename style message) = false.
Proof. apply deriveBaseFilename_invariants. Qed.

(** X2.  Sanitizing and trimming a derived base file name again gives the
    same name. *)
Theorem deriveBaseFilename_resanitize (style : FileNameStyle) (message : RegistryMessage) :
  trim (sanitizeChars (deriveBaseFilename style message)) = deriveBaseFilename style message.
Proof.
  destruct (deriveBaseFilename_invariants style message) as [_ [Hf [Hs He]]].
  rewrite (sanitizeChars_id _ Hf). unfold trim.
  now rewrite (trimStart_id _ Hs), (trimEnd_id _ He).
Qed.

(** X3.  With the style Author (Year) the name is the fallback [Untitled]
    exactly when there is no first author or none of [issued],
    [published-print], [published-online] and [created] has a truthy year. *)
Theorem authorYear_fallback (message : RegistryMessage) :
  deriveBaseFilename ByAuthorYear message = "Untitled"
  <-> (author (record message) = None \/ author (record message) = Some []
       \/ probeYear message = None).
Proof.
  unfold deriveBaseFilename.
  destruct (author (record message)) as [[|firstAuthor others]|].
  - split; auto.
  - destruct (probeYear message) as [year|].
    + split.
      * intros H. exfalso.
        assert (Hc : hasChar "("
                       (trim (sanitizeChars
                                ((familyOrUnknown firstAuthor
                                  ++ (if Nat.ltb 1 (List.length (firstAuthor :: others))
                                      then " et al" else ""))
                                 ++ " (" ++ numToString year ++ ")"))) = true).
        { apply hasChar_clean; try reflexivity.
          rewrite !hasChar_app. simpl. now rewrite !orb_true_r. }
        rewrite H in Hc. discriminate.
      * intros [H | [H | H]]; discriminate.
    + split; auto.
  - split; auto.
Qed.

(** X4.  When [createNote] gets as far as [vault.create], the path it
    passes is one of the paths of the collision loop for the derived base
    name, no file exists at it while a file exists at every path tried
    before it, and the text is the rendered note. *)
Theorem createNote_creates_at_free_path
        (fuel : nat) (vault : Vault) (settings : HappyRefSettings) (currentDate : Date)
        (message : RegistryMessage) (filePath content : string) :
  createNote fuel vault settings currentDate message = Some (Ok (filePath, content)) ->
  isFile vault filePath = false
  /\ createNoteContent settings currentDate (record message) = Ok content
  /\ exists n,
      filePath = candidate vault (defaultFolder settings)
                           (deriveBaseFilename (fileNameStyle settings) message) n
      /\ forall k, k < n ->
           isFile vault (candidate vault (defaultFolder settings)
                                   (deriveBaseFilename (fileNameStyle settings) message) k)
           = true.
Proof.
  unfold createNote. intros H.
  destruct (resolvePath fuel vault (defaultFolder settings)
                        (deriveBaseFilename (fileNameStyle settings) message))
    as [p|] eqn:E; [|discriminate].
  destruct (createNoteContent settings currentDate (record message)) as [c|e];
    [|discriminate].
  simpl in H. inversion H; subst.
  apply resolvePath_sound in E. destruct E as [n [Hp [Hfree Hall]]].
  repeat split; [exact Hfree|]. exists n. auto.
Qed.

Lemma createNote_creates_at_free_path_witness :
  isFile vaultX "X (3).md" = false
  /\ createNoteContent (settingsWith NoStyle) clock (record (msgOf titledX))
     = Ok (noteOf NoStyle titledX)
  /\ exists n,
      "X (3).md" = candidate vaultX "" (deriveBaseFilename ByTitle (msgOf titledX)) n
      /\ forall k, k < n ->
           isFile vaultX (candidate vaultX "" (deriveBaseFilename ByTitle (msgOf titledX)) k)
           = true.
Proof.
  apply (createNote_creates_at_free_path 5 vaultX (settingsWith NoStyle) clock
           (msgOf titledX) "X (3).md" (noteOf NoStyle titledX)).
  reflexivity.
Defined.

(** ** The identifier dialogs of the first revision *)

Lemma noSpace_removeWhitespace (s : string) : noSpace (removeWhitespace s) = true.
Proof.
  induction s as [|c r IH]; [reflexivity|]. simpl.
  destruct (isSpace c) eqn:E; [exact IH | simpl; now rewrite E].
Qed.

Lemma noSpace_app (a b : string) : noSpace (a ++ b) = noSpace a && noSpace b.
Proof. induction a as [|c a IH]; [reflexivity|]. simpl. now rewrite IH, andb_assoc. Qed.

Lemma noSpace_trim (s : string) : noSpace s = true -> trim s = s.
Proof.
  intros H. unfold trim.
  assert (Hs : startsWithSpace s = false).
  { destruct s as [|c r]; [reflexivity|]. simpl in *.
    apply andb_true_iff in H as [H _]. now apply negb_true_iff in H. }
  rewrite (trimStart_id _ Hs). apply trimEnd_id.
  induction s as [|c r IH]; [reflexivity|].
  simpl in H. apply andb_true_iff in H as [Hc Hr]. apply negb_true_iff in Hc.
  destruct r as [|d r']; [exact Hc|].
  apply IH; [exact Hr|].
  simpl in Hr. apply andb_true_iff in Hr as [Hd _]. now apply negb_true_iff in Hd.
Qed.

Lemma removeWhitespace_app (a b : string) :
  removeWhitespace (a ++ b) = removeWhitespace a ++ removeWhitespace b.
Proof.
  induction a as [|c a IH]; [reflexivity|]. simpl.
  destruct (isSpace c); [exact IH | simpl; now rewrite IH].
Qed.

Lemma removeWhitespace_id (s : string) : noSpace s = true -> removeWhitespace s = s.
Proof.
  induction s as [|c r IH]; [auto|]. simpl. intros H.
  apply andb_true_iff in H as [Hc Hr]. apply negb_true_iff in Hc.
  now rewrite Hc, IH.
Qed.

Lemma noSpace_doiInputListener (value : string) : noSpace (doiInputListener value) = true.
Proof.
  unfold doiInputListener.
  destruct (stripPrefix doiOrgPrefix (removeWhitespace value)) as [rest|] eqn:E.
  - apply stripPrefix_Some in E.
    pose proof (noSpace_removeWhitespace value) as H.
    rewrite E, noSpace_app in H. now apply andb_true_iff in H as [_ H].
  - apply noSpace_removeWhitespace.
Qed.

(** X5.  The value the DOI dialog keeps in its field holds no white space,
    so the trimming of the button's handler changes nothing: the kept
    value is submitted as it is, unless it is empty. *)
Theorem doi_field_submitted_unchanged (value : string) :
  noSpace (doiInputListener value) = true
  /\ submitValue (doiInputListener value)
     = if nonEmpty (doiInputListener value) then Some (doiInputListener value) else None.
Proof.
  split; [apply noSpace_doiInputListener|].
  unfold submitValue. now rewrite (noSpace_trim _ (noSpace_doiInputListener value)).
Qed.

(** X6.  A DOI typed with the [https://doi.org/] prefix and the same DOI
    typed without it leave the same value in the field, for a DOI that
    does not itself begin with the prefix. *)
Theorem doi_prefix_is_optional (doi : string) :
  stripPrefix doiOrgPrefix (removeWhitespace doi) = None ->
  doiInputListener (doiOrgPrefix ++ doi) = doiInputListener doi
  /\ doiInputListener doi = removeWhitespace doi.
Proof.
  intros H. unfold doiInputListener.
  rewrite removeWhitespace_app.
  change (removeWhitespace doiOrgPrefix) with doiOrgPrefix.
  now rewrite stripPrefix_app, H.
Qed.

Lemma doi_prefix_is_optional_witness :
  doiInputListener (doiOrgPrefix ++ "10.58594/rtest.v4i2.113")
  = doiInputListener "10.58594/rtest.v4i2.113"
  /\ doiInputListener "10.58594/rtest.v4i2.113" = removeWhitespace "10.58594/rtest.v4i2.113".
Proof. apply (doi_prefix_is_optional "10.58594/rtest.v4i2.113"). reflexivity. Defined.

(** X7.  The ISBN dialog drops the label [ISBN], in any mix of upper and
    lower case, with the colon or hyphen after it, and all white space:
    what stays in the field is the rest of the input without white
    space. *)
Theorem isbn_label_dropped (a b c d e : ascii) (value rest : string) :
  eqbCase a "I" = true -> eqbCase b "S" = true -> eqbCase c "B" = true ->
  eqbCase d "N" = true -> e = ":"%char \/ e = "-"%char ->
  removeWhitespace value = String a (String b (String c (String d (String e rest)))) ->
  isbnInputListener value = rest /\ noSpace rest = true.
Proof.
  intros Ha Hb Hc Hd He Hv. unfold isbnInputListener. rewrite Hv. split.
  - unfold stripIsbnLabel. rewrite Ha, Hb, Hc, Hd. simpl.
    destruct He as [-> | ->]; reflexivity.
  - pose proof (noSpace_removeWhitespace value) as H. rewrite Hv in H.
    simpl in H. repeat (apply andb_true_iff in H as [_ H]). exact H.
Qed.

Lemma isbn_label_dropped_witness :
  isbnInputListener "isbn: 978-0321765723" = "978-0321765723"
  /\ noSpace "978-0321765723" = true.
Proof.
  apply (isbn_label_dropped "i" "s" "b" "n" ":" "isbn: 978-0321765723" "978-0321765723");
    try reflexivity.
  left; reflexivity.
Defined.

(** ** The path loop of the first revision *)

(** X8.  In the first revision, for a title that sanitizes to the empty
    string, the fallback name is used for the first path only: once
    [Crossref Note.md] is taken, the paths tried are [ (1).md], [ (2).md]
    and so on in the root folder, and the first of them that is free is
    returned. *)
Theorem rev1_fallback_only_first_path
        (fuel : nat) (vault : Vault) (message : CitationMetadata) (n : nat) :
  rev1SanitizedTitle message = "" ->
  isFile vault "Crossref Note.md" = true ->
  (forall k, k < n -> isFile vault (" (" ++ natToString (S k) ++ ").md") = true) ->
  isFile vault (" (" ++ natToString (S n) ++ ").md") = false ->
  S n < fuel ->
  rev1ResolvePath fuel vault "" message = Some (" (" ++ natToString (S n) ++ ").md").
Proof.
  intros Ht Hfirst Hall Hfree Hfuel. unfold rev1ResolvePath. rewrite Ht.
  cbn [orElse nonEmpty append].
  assert (Hpath : forall k, suffixedPath "" "" k = " (" ++ natToString k ++ ").md").
  { intros k. unfold suffixedPath. cbn [nonEmpty append]. now rewrite append_assoc. }
  rewrite (resolveLoop_first_free vault "" "" (S n) fuel "Crossref Note.md" 1 Hfuel).
  - cbn [pathAt]. now rewrite Hpath.
  - intros [|k] Hk; [exact Hfirst|]. cbn [pathAt]. rewrite Hpath. apply (Hall k). lia.
  - cbn [pathAt]. now rewrite Hpath.
Qed.

Lemma rev1_fallback_only_first_path_witness :
  rev1ResolvePath 3 vaultFallbackTaken "" questionMarks = Some " (1).md".
Proof.
  apply (rev1_fallback_only_first_path 3 vaultFallbackTaken questionMarks 0).
  - reflexivity.
  - reflexivity.
  - intros k Hk. lia.
  - reflexivity.
  - lia.
Defined.

(** ** The formatters, further *)

Lemma formatter_throw_inv (style : CitationStyle) (m : CitationMetadata) (e : Exn) :
  formatCitation style m = Throw e ->
  style <> NoStyle /\ e = readOfUndefined
  /\ exists a d t c,
      author m = Some a /\ issued m = Some d /\ title m = Some t
      /\ container_title m = Some c
      /\ (date_parts d = None \/ date_parts d = Some []).
Proof.
  intros H.
  assert (Hs : style <> NoStyle) by (intros ->; discriminate).
  split; [exact Hs|].
  destruct (author m) as [a|] eqn:Ea; [|rewrite missing_field_diagnostic in H; auto; discriminate].
  destruct (issued m) as [d|] eqn:Ed; [|rewrite missing_field_diagnostic in H; auto; discriminate].
  destruct (title m) as [t|] eqn:Et; [|rewrite missing_field_diagnostic in H; auto; discriminate].
  destruct (container_title m) as [c|] eqn:Ec;
    [|rewrite missing_field_diagnostic in H; auto 6; discriminate].
  destruct (date_parts d) as [[|first rest]|] eqn:Ep.
  - rewrite (formatter_throws style m a d t c Ea Ed Et Ec (or_intror Ep) Hs) in H.
    injection H as <-. split; [reflexivity|]. exists a, d, t, c. auto 6.
  - exfalso.
    destruct (formatter_returns style m) as [s Hs'].
    + intros d' Hd'. rewrite Ed in Hd'. inversion Hd'; subst. eauto.
    + congruence.
  - rewrite (formatter_throws style m a d t c Ea Ed Et Ec (or_introl Ep) Hs) in H.
    injection H as <-. split; [reflexivity|]. exists a, d, t, c. auto 6.
Qed.

(** X9.  The whole error behaviour of the formatters: a formatter throws
    exactly when the style is not [None], the four guarded fields are
    present and ['date-parts'] is absent or empty; the exception is then
    the [TypeError] of the index read.  In every other case a string is
    returned. *)
Theorem formatter_throws_exactly (style : CitationStyle) (m : CitationMetadata) (e : Exn) :
  formatCitation style m = Throw e
  <-> (style <> NoStyle /\ e = readOfUndefined
       /\ exists a d t c,
           author m = Some a /\ issued m = Some d /\ title m = Some t
           /\ container_title m = Some c
           /\ (date_parts d = None \/ date_parts d = Some [])).
Proof.
  split; [apply formatter_throw_inv|].
  intros [Hs [-> [a [d [t [c [Ha [Hd [Ht [Hc Hp]]]]]]]]]].
  now apply (formatter_throws style m a d t c).
Qed.

(** X10.  With the four guarded fields present and a first ['date-parts']
    element whose year is absent or zero, every formatter returns its
    missing-year diagnostic. *)
Theorem year_diagnostic_with_first_date_part
        (style : CitationStyle) (m : CitationMetadata)
        (a : list Author) (d : DateField) (t c : list string)
        (first : list Z) (rest : list (list Z)) :
  author m = Some a -> issued m = Some d -> title m = Some t -> container_title m = Some c ->
  date_parts d = Some (first :: rest) ->
  truthyNum (hd_error first) = false ->
  style <> NoStyle ->
  formatCitation style m
  = Ok ("Could not generate " ++ styleLabel style ++ " citation due to missing year data.").
Proof. apply missing_year_diagnostic. Qed.

Lemma year_diagnostic_with_first_date_part_witness :
  formatCitation Chicago (withIssued lecun (Some (mkDate (Some [[0%Z; 5%Z]]))))
  = Ok "Could not generate Chicago citation due to missing year data.".
Proof.
  apply (year_diagnostic_with_first_date_part
           Chicago (withIssued lecun (Some (mkDate (Some [[0%Z; 5%Z]]))))
           [mkAuthor (Some "Yann") (Some "LeCun")] (mkDate (Some [[0%Z; 5%Z]]))
           ["Deep Learning"] ["Nature"] [0%Z; 5%Z] []);
    try reflexivity.
  discriminate.
Defined.

(** X11.  A present, non-empty DOI takes precedence over the URL in every
    style: with such a DOI the citation does not depend on the URL. *)
Theorem doi_precedes_url (style : CitationStyle) (m : CitationMetadata) (u : option string) :
  truthyStr (DOI m) = true ->
  formatCitation style (withURL m u) = formatCitation style m.
Proof.
  intros H. destruct m; simpl in H.
  destruct style; fmt_unfold; unfold withURL;
    cbn [title author container_title issued DOI URL volume page issue date_accessed];
    try reflexivity; rewrite H; reflexivity.
Qed.

Lemma doi_precedes_url_witness :
  formatCitation APA (withURL lecun (Some "https://example.org")) = formatCitation APA lecun.
Proof. apply (doi_precedes_url APA lecun (Some "https://example.org")). reflexivity. Defined.

(** X12.  The Harvard and Vancouver formatters do not test the DOI: for a
    record without DOI they print the link to [https://doi.org/undefined],
    the very citation of a record whose DOI is the text [undefined]; they
    never use the URL. *)
Theorem harvard_vancouver_absent_doi (m : CitationMetadata) (u : option string) :
  formatHarvardCitation (withDOI m None) = formatHarvardCitation (withDOI m (Some "undefined"))
  /\ formatVancouverCitation (withDOI m None)
     = formatVancouverCitation (withDOI m (Some "undefined"))
  /\ formatHarvardCitation (withURL m u) = formatHarvardCitation m
  /\ formatVancouverCitation (withURL m u) = formatVancouverCitation m.
Proof. destruct m. repeat split. Qed.

Lemma nonEmpty_length (s : string) : 0 < String.length s -> nonEmpty s = true.
Proof. destruct s; simpl; [lia | reflexivity]. Qed.

(** A formatter never returns the empty string. *)
Lemma formatter_output_nonEmpty (style : CitationStyle) (m : CitationMetadata) (s : string) :
  style <> NoStyle -> formatCitation style m = Ok s -> nonEmpty s = true.
Proof.
  intros Hs.
  destruct style; try congruence; fmt_unfold;
    destruct (author m), (issued m) as [d|], (title m), (container_title m);
    try (intros H; injection H as <-; reflexivity);
    destruct (issuedYear d) as [year|e]; cbn [Js.bind]; try discriminate;
    destruct (negb (truthyNum year));
    try (intros H; injection H as <-; reflexivity);
    intros H; injection H as <-; apply nonEmpty_length;
    repeat match goal with
           | |- context [if ?c then _ else _] => destruct c
           end;
    rewrite !length_append; simpl; lia.
Qed.

(** X13.  For every style but [None], whenever [createNote] renders a note
    the note has a citation section: front matter, title heading, the
    [## Citation] heading with the formatter's text and the fence, then
    the abstract section.  (A formatter never returns the empty string.) *)
Theorem createNote_writes_citation_section
        (settings : HappyRefSettings) (currentDate : Date) (m : CitationMetadata)
        (note : string) :
  citationStyle settings <> NoStyle ->
  createNoteContent settings currentDate m = Ok note ->
  exists citationText,
    formatCitation (citationStyle settings) m = Ok citationText
    /\ nonEmpty citationText = true
    /\ note = createNoteFrontmatter currentDate m ++ titleHeading m
              ++ ("## Citation" ++ nl ++ citationText ++ nl ++ nl ++ "---" ++ nl ++ nl)
              ++ abstractSection m.
Proof.
  intros Hs H. unfold createNoteContent in H.
  destruct (formatCitation (citationStyle settings) m) as [text|e] eqn:F; [|discriminate].
  cbn [Js.bind] in H. injection H as <-.
  pose proof (formatter_output_nonEmpty _ _ _ Hs F) as Hn.
  exists text. repeat split; [exact Hn|].
  unfold citationSection. rewrite Hn. now rewrite !append_assoc.
Qed.

Lemma createNote_writes_citation_section_witness :
  exists citationText,
    formatCitation Harvard lecun = Ok citationText
    /\ nonEmpty citationText = true
    /\ noteOf Harvard lecun
       = createNoteFrontmatter clock lecun ++ titleHeading lecun
         ++ ("## Citation" ++ nl ++ citationText ++ nl ++ nl ++ "---" ++ nl ++ nl)
         ++ abstractSection lecun.
Proof.
  apply (createNote_writes_citation_section (settingsWith Harvard) clock lecun
           (noteOf Harvard lecun)).
  - discriminate.
  - reflexivity.
Defined.

(** X14.  For more than twenty authors the APA author list is the first
    nineteen authors, each as "Family, G.", joined by commas, then
    [, ..., ] and the last author; the authors in between are left out. *)
Theorem apa_more_than_twenty (first19 middle : list Author) (lastAuthor : Author) :
  List.length first19 = 19 ->
  1 <= List.length middle ->
  apaAuthors (first19 ++ middle ++ [lastAuthor])
  = join ", " (map familyInitial first19) ++ ", ..., " ++ familyInitial lastAuthor.
Proof.
  intros H19 Hmid.
  set (l := (first19 ++ middle ++ [lastAuthor])%list).
  assert (Hlen : List.length l = 19 + List.length middle + 1).
  { subst l. rewrite !length_app, H19. simpl. lia. }
  assert (Hfirst : firstn 19 l = first19).
  { subst l. rewrite <- H19. rewrite firstn_app, Nat.sub_diag, firstn_all. simpl.
    apply app_nil_r. }
  assert (Hlast : forall d, last l d = lastAuthor).
  { intros d. subst l. rewrite app_assoc. apply last_last. }
  unfold apaAuthors. fold l.
  destruct l as [|a0 [|a1 [|a2 l']]] eqn:El; simpl in Hlen; try lia.
  rewrite <- El in *.
  replace (Nat.leb (List.length l) 20) with false
    by (symmetry; apply Nat.leb_gt; rewrite El; simpl; lia).
  now rewrite Hfirst, Hlast.
Qed.

Lemma apa_more_than_twenty_witness :
  apaAuthors (repeat (mkAuthor (Some "Ada") (Some "A")) 19
              ++ [mkAuthor (Some "Bob") (Some "B")] ++ [mkAuthor (Some "Zoe") (Some "Z")])
  = join ", " (map familyInitial (repeat (mkAuthor (Some "Ada") (Some "A")) 19))
    ++ ", ..., " ++ familyInitial (mkAuthor (Some "Zoe") (Some "Z")).
Proof.
  apply (apa_more_than_twenty (repeat (mkAuthor (Some "Ada") (Some "A")) 19)
           [mkAuthor (Some "Bob") (Some "B")] (mkAuthor (Some "Zoe") (Some "Z"))).
  - reflexivity.
  - simpl. lia.
Defined.

(** ** The abstract *)

Lemma replaceAll_absent (pat rep s : string) :
  splitAtFirst pat s = None -> replaceAll pat rep s = s.
Proof.
  unfold replaceAll. induction s as [|c r IH]; [reflexivity|].
  intros H. cbn [splitAtFirst] in H. cbn [replaceAllFrom].
  destruct (stripPrefix pat (String c r)); [discriminate|].
  destruct (splitAtFirst pat r) as [[a b]|]; [discriminate|].
  f_equal. now apply IH.
Qed.

Lemma splitAtFirst_first_char_absent (c : ascii) (pat s : string) :
  hasChar c s = false -> splitAtFirst (String c pat) s = None.
Proof.
  induction s as [|d r IH]; [reflexivity|]. intros H.
  simpl in H. apply orb_false_iff in H as [Hd Hr].
  cbn [splitAtFirst stripPrefix]. rewrite Ascii.eqb_sym, Hd.
  now rewrite (IH Hr).
Qed.

(** X15.  An abstract without the character [<] and without two spaces in
    a row goes into the note as it is: none of the ten replacements
    touches it. *)
Theorem plain_abstract_kept (m : CitationMetadata) (a : string) :
  abstract m = Some a ->
  nonEmpty a = true ->
  hasChar "<" a = false ->
  splitAtFirst "  " a = None ->
  sanitizeAbstract a = a
  /\ abstractSection m = "## Abstract" ++ nl ++ a ++ nl.
Proof.
  intros Ha Hn Hlt Hsp.
  assert (Hs : sanitizeAbstract a = a).
  { unfold sanitizeAbstract. cbn [append].
    repeat (rewrite (replaceAll_absent (String "<" _) _ a)
             by (apply splitAtFirst_first_char_absent; exact Hlt)).
    now apply replaceAll_absent. }
  split; [exact Hs|].
  unfold abstractSection. rewrite Ha. cbn [tplStr].
  destruct a as [|c r]; [discriminate|]. cbn [truthyStr]. now rewrite Hs.
Qed.

Lemma plain_abstract_kept_witness :
  sanitizeAbstract "Deep learning allows computational models."
  = "Deep learning allows computational models."
  /\ abstractSection plainAbstract
     = "## Abstract" ++ nl ++ "Deep learning allows computational models." ++ nl.
Proof.
  apply (plain_abstract_kept plainAbstract "Deep learning allows computational models.");
    reflexivity.
Defined.

(** ** Rewriting the front matter, further *)

(** X16.  [updateYAMLFrontmatter] leaves the body of the note alone: on a
    note with front matter the text written is a new block followed by the
    text that followed the old block, byte for byte; the new block is the
    generated front matter whenever that holds no dollar sign. *)
Theorem updateYAMLFrontmatter_keeps_body
        (currentDate : Date) (fileContent group1 contentBody : string)
        (metadata : CitationMetadata) :
  frontmatterMatch fileContent = Some (group1, contentBody) ->
  exists block,
    updateYAMLFrontmatter currentDate fileContent metadata = block ++ contentBody
    /\ (dollarFree (newFrontmatterString currentDate metadata) = true ->
        block = newFrontmatterString currentDate metadata).
Proof.
  intros Hmatch. unfold updateYAMLFrontmatter. rewrite Hmatch.
  pose proof (frontmatterMatch_Some _ _ _ Hmatch) as Hfile.
  unfold replaceFirst.
  assert (Hsplit : splitAtFirst ("---" ++ group1 ++ "---") fileContent
                   = Some ("", contentBody)).
  { rewrite Hfile.
    replace ("---" ++ group1 ++ "---" ++ contentBody)
      with (("---" ++ group1 ++ "---") ++ contentBody) by now rewrite !append_assoc.
    apply splitAtFirst_prefix. }
  rewrite Hsplit.
  exists (getSubstitution ("---" ++ group1 ++ "---") "" contentBody []
                          (newFrontmatterString currentDate metadata)).
  split; [reflexivity|].
  intros Hd. now apply getSubstitution_dollarFree.
Qed.

Lemma updateYAMLFrontmatter_keeps_body_witness :
  exists block,
    updateYAMLFrontmatter clock (noteOf Harvard lecun) noDoi
    = block ++ sampleBody harvardText
    /\ (dollarFree (newFrontmatterString clock noDoi) = true ->
        block = newFrontmatterString clock noDoi).
Proof.
  apply (updateYAMLFrontmatter_keeps_body clock (noteOf Harvard lecun) sampleBlock
           (sampleBody harvardText) noDoi).
  reflexivity.
Defined.

(** ** Changing the citation style, further *)

(** X17.  When the style change ends with an exception, the note is as it
    was, with one exception: after a successful re-fetch the front matter
    has already been rewritten, so a formatter that then throws leaves the
    note with the new front matter and the old citation. *)
Theorem restyle_failure_leaves_file
        (env : Collaborators) (currentDate : Date) (fileContent after : string)
        (newStyle : CitationStyle) (e : Exn) :
  changeCitationStyle env currentDate fileContent newStyle = (after, Throw e) ->
  after = fileContent
  \/ exists doi fetched,
      refetch env currentDate doi = Ok fetched
      /\ formatCitation newStyle fetched = Throw e
      /\ after = updateYAMLFrontmatter currentDate fileContent fetched.
Proof.
  unfold changeCitationStyle. intros H.
  destruct (frontmatterMatch fileContent) as [[group1 contentBody]|];
    [|injection H as <- _; now left].
  destruct (yamlLoad env group1) as [loaded|e0]; [|injection H as <- _; now left].
  destruct (metadataComplete (frontmatterObject loaded)).
  - destruct (formatCitation newStyle (frontmatterObject loaded)); [discriminate|].
    injection H as <- _. now left.
  - destruct (truthyStr (DOI (frontmatterObject loaded)));
      [|injection H as <- _; now left].
    destruct (refetch env currentDate (tplStr (DOI (frontmatterObject loaded))))
      as [fetched|e0] eqn:R; [|injection H as <- _; now left].
    destruct (formatCitation newStyle fetched) as [text|e0] eqn:F; [discriminate|].
    injection H as <- <-. right. eauto.
Qed.

Lemma restyle_failure_leaves_file_witness :
  updateYAMLFrontmatter clock (noteOf Harvard lecun) refetchedBroken = noteOf Harvard lecun
  \/ exists doi fetched,
      refetch brokenDateEnv clock doi = Ok fetched
      /\ formatCitation APA fetched = Throw readOfUndefined
      /\ updateYAMLFrontmatter clock (noteOf Harvard lecun) refetchedBroken
         = updateYAMLFrontmatter clock (noteOf Harvard lecun) fetched.
Proof.
  apply (restyle_failure_leaves_file brokenDateEnv clock (noteOf Harvard lecun)
           (updateYAMLFrontmatter clock (noteOf Harvard lecun) refetchedBroken)
           APA readOfUndefined).
  reflexivity.
Defined.

(** X18.  A style change that succeeds writes the old metadata block back,
    between fences that each gained a line feed, and the old body with its
    citation section replaced; what the re-fetch wrote into the front
    matter is overwritten. *)
Theorem restyle_success_writes_old_block
        (env : Collaborators) (currentDate : Date) (fileContent written : string)
        (newStyle : CitationStyle) :
  changeCitationStyle env currentDate fileContent newStyle = (written, Ok tt) ->
  exists group1 contentBody citationMetadata citationText,
    fileContent = "---" ++ group1 ++ "---" ++ contentBody
    /\ formatCitation newStyle citationMetadata = Ok citationText
    /\ written = "---" ++ nl ++ group1 ++ "---" ++ nl
                 ++ replaceCitationSection contentBody citationText.
Proof. apply changeCitationStyle_success. Qed.

Lemma restyle_success_writes_old_block_witness :
  exists group1 contentBody citationMetadata citationText,
    noteOf Harvard lecun = "---" ++ group1 ++ "---" ++ contentBody
    /\ formatCitation APA citationMetadata = Ok citationText
    /\ "---" ++ nl ++ sampleBlock ++ "---" ++ nl ++ sampleBody apaText
       = "---" ++ nl ++ group1 ++ "---" ++ nl
         ++ replaceCitationSection contentBody citationText.
Proof.
  apply (restyle_success_writes_old_block sampleEnv clock (noteOf Harvard lecun)
           ("---" ++ nl ++ sampleBlock ++ "---" ++ nl ++ sampleBody apaText) APA).
  reflexivity.
Defined.

Lemma stripPrefix_None_ext (p x b b' : string) :
  String.length p <= String.length x ->
  stripPrefix p (x ++ b) = None -> stripPrefix p (x ++ b') = None.
Proof.
  revert x; induction p as [|c p IH]; intros x Hlen H; [discriminate|].
  destruct x as [|d x]; [simpl in Hlen; lia|].
  simpl in *. destruct (Ascii.eqb c d); [|reflexivity].
  apply IH; [lia | exact H].
Qed.

(** The split of [a ++ p ++ b] at [a] does not depend on [b]. *)
Lemma splitAtFirst_ext (p a b b' : string) :
  splitAtFirst p (a ++ p ++ b) = Some (a, b) ->
  splitAtFirst p (a ++ p ++ b') = Some (a, b').
Proof.
  induction a as [|c a IH]; intros H.
  - change ("" ++ p ++ b') with (p ++ b'). apply splitAtFirst_prefix.
  - change (String c a ++ p ++ b') with (String c (a ++ p ++ b')).
    change (String c a ++ p ++ b) with (String c (a ++ p ++ b)) in H.
    cbn [splitAtFirst] in *.
    destruct (stripPrefix p (String c (a ++ p ++ b))) eqn:E; [discriminate|].
    assert (E' : stripPrefix p (String c (a ++ p ++ b')) = None).
    { change (String c (a ++ p ++ b')) with (String c a ++ p ++ b').
      rewrite <- append_assoc.
      apply (stripPrefix_None_ext p (String c a ++ p) b b').
      - rewrite length_append. lia.
      - rewrite append_assoc. exact E. }
    rewrite E'.
    destruct (splitAtFirst p (a ++ p ++ b)) as [[a1 b1]|] eqn:S; [|discriminate].
    injection H as -> ->. now rewrite (IH eq_refl).
Qed.

(** X19.  Every note [createNote] renders begins with a front-matter block
    that the style change finds, so the command does not end with its
    missing-front-matter error on a rendered note. *)
Theorem rendered_note_has_front_matter
        (settings : HappyRefSettings) (currentDate : Date) (m : CitationMetadata)
        (note : string) :
  createNoteContent settings currentDate m = Ok note ->
  exists group1 contentBody, frontmatterMatch note = Some (group1, contentBody).
Proof.
  unfold createNoteContent. intros H.
  destruct (formatCitation (citationStyle settings) m) as [text|e]; [|discriminate].
  cbn [Js.bind] in H. injection H as <-.
  rewrite createNoteFrontmatter_entries. unfold frontmatterMatch.
  rewrite !append_assoc. rewrite stripPrefix_app.
  set (lines := entryLines (frontmatterEntries currentDate m)).
  set (rest := nl ++ nl ++ titleHeading m ++ citationSection text ++ abstractSection m).
  replace (nl ++ lines ++ "---" ++ rest) with ((nl ++ lines) ++ "---" ++ rest)
    by now rewrite append_assoc.
  apply splitAtFirst_found.
Qed.

Lemma rendered_note_has_front_matter_witness :
  exists group1 contentBody,
    frontmatterMatch (noteOf Harvard lecun) = Some (group1, contentBody).
Proof.
  apply (rendered_note_has_front_matter (settingsWith Harvard) clock lecun
           (noteOf Harvard lecun)).
  reflexivity.
Defined.

(** X20.  After a style change that succeeded the note still has a front
    matter that the next run finds: the old block with one more line feed
    in front, followed by a body with one more line feed in front.  Each
    successful run adds the two line feeds again. *)
Theorem restyled_note_front_matter
        (env : Collaborators) (currentDate : Date) (fileContent written : string)
        (newStyle : CitationStyle) (group1 contentBody : string) :
  frontmatterMatch fileContent = Some (group1, contentBody) ->
  changeCitationStyle env currentDate fileContent newStyle = (written, Ok tt) ->
  exists citationText,
    frontmatterMatch written
    = Some (nl ++ group1, nl ++ replaceCitationSection contentBody citationText).
Proof.
  intros Hmatch H.
  pose proof (frontmatterMatch_Some _ _ _ Hmatch) as Hfile.
  unfold changeCitationStyle in H. rewrite Hmatch in H.
  destruct (yamlLoad env group1) as [loaded|e]; [|discriminate].
  destruct (if metadataComplete (frontmatterObject loaded) then _ else _) as [file1 [m|e]];
    [|discriminate].
  destruct (formatCitation newStyle m) as [text|e]; [|discriminate].
  injection H as <-. exists text.
  unfold frontmatterMatch in *.
  rewrite Hfile, stripPrefix_app in Hmatch.
  pose proof (splitAtFirst_ext "---" group1 contentBody
                (nl ++ replaceCitationSection contentBody text) Hmatch) as E.
  change (match splitAtFirst "---"
                  (group1 ++ "---" ++ nl ++ replaceCitationSection contentBody text) with
          | Some (before, after) => Some (String "010"%char before, after)
          | None => None
          end = Some (nl ++ group1, nl ++ replaceCitationSection contentBody text)).
  now rewrite E.
Qed.

Lemma restyled_note_front_matter_witness :
  exists citationText,
    frontmatterMatch ("---" ++ nl ++ sampleBlock ++ "---" ++ nl ++ sampleBody apaText)
    = Some (nl ++ sampleBlock,
            nl ++ replaceCitationSection (sampleBody harvardText) citationText).
Proof.
  apply (restyled_note_front_matter sampleEnv clock (noteOf Harvard lecun)
           ("---" ++ nl ++ sampleBlock ++ "---" ++ nl ++ sampleBody apaText) APA
           sampleBlock (sampleBody harvardText)).
  - reflexivity.
  - reflexivity.
Defined.

(** X21.  When the front matter carries the four required fields the
    registry is not consulted: the outcome of the style change is the same
    whatever [fetchCrossrefData] would do, and the citation is formatted
    from the front matter. *)
Theorem complete_metadata_needs_no_fetch
        (yaml : string -> Result (option CitationMetadata))
        (fetch1 fetch2 : string -> Result (option CitationMetadata))
        (currentDate : Date) (fileContent group1 contentBody : string)
        (loaded : option CitationMetadata) (newStyle : CitationStyle) :
  frontmatterMatch fileContent = Some (group1, contentBody) ->
  yaml group1 = Ok loaded ->
  metadataComplete (frontmatterObject loaded) = true ->
  changeCitationStyle (mkCollaborators yaml fetch1) currentDate fileContent newStyle
  = changeCitationStyle (mkCollaborators yaml fetch2) currentDate fileContent newStyle
  /\ changeCitationStyle (mkCollaborators yaml fetch1) currentDate fileContent newStyle
     = match formatCitation newStyle (frontmatterObject loaded) with
       | Ok citationText =>
           ("---" ++ nl ++ group1 ++ "---" ++ nl
            ++ replaceCitationSection contentBody citationText, Ok tt)
       | Throw e => (fileContent, Throw e)
       end.
Proof.
  intros Hmatch Hyaml Hc. unfold changeCitationStyle. cbn [yamlLoad].
  rewrite Hmatch, Hyaml, Hc. split; reflexivity.
Qed.

Lemma complete_metadata_needs_no_fetch_witness :
  changeCitationStyle (completeEnv (fun _ => Throw (Error "offline"))) clock
                      (noteOf Harvard lecun) APA
  = changeCitationStyle (completeEnv (fun _ => Ok None)) clock (noteOf Harvard lecun) APA
  /\ changeCitationStyle (completeEnv (fun _ => Throw (Error "offline"))) clock
                         (noteOf Harvard lecun) APA
     = match formatCitation APA (frontmatterObject (Some lecun)) with
       | Ok citationText =>
           ("---" ++ nl ++ sampleBlock ++ "---" ++ nl
            ++ replaceCitationSection (sampleBody harvardText) citationText, Ok tt)
       | Throw e => (noteOf Harvard lecun, Throw e)
       end.
Proof.
  apply (complete_metadata_needs_no_fetch
           (fun _ => Ok (Some lecun)) (fun _ => Throw (Error "offline")) (fun _ => Ok None)
           clock (noteOf Harvard lecun) sampleBlock (sampleBody harvardText)
           (Some lecun) APA); reflexivity.
Defined.

(** ** The citation section, the loop and the front matter, further *)

(** X22.  On a body with a citation section, replacing the section keeps
    the text before the heading, the heading, the fence line that ends the
    section and all text after it, whatever the new citation text holds
    (dollar patterns included); only the text between heading and fence
    changes. *)
Theorem citation_replacement_frame
        (contentBody citationText before group2 after : string) :
  citationSectionMatch contentBody = Some (before, group2, after) ->
  contentBody = before ++ citationHeading ++ group2 ++ fenceLine ++ after
  /\ exists inside,
      replaceCitationSection contentBody citationText
      = before ++ citationHeading ++ inside ++ fenceLine ++ after.
Proof. apply replaceCitationSection_frame. Qed.

Lemma citation_replacement_frame_witness :
  sampleBody harvardText
  = sampleHeading ++ citationHeading ++ (harvardText ++ nl) ++ fenceLine
    ++ (nl ++ nl ++ sampleAbstract)
  /\ exists inside,
      replaceCitationSection (sampleBody harvardText) "$& costs $1"
      = sampleHeading ++ citationHeading ++ inside ++ fenceLine
        ++ (nl ++ nl ++ sampleAbstract).
Proof.
  apply (citation_replacement_frame (sampleBody harvardText) "$& costs $1" sampleHeading
           (harvardText ++ nl) (nl ++ nl ++ sampleAbstract)).
  reflexivity.
Defined.

(** X23.  The collision loop has no bound of its own: when a file exists at
    every path it tries, it returns for no amount of fuel. *)
Theorem path_loop_never_returns_when_all_taken (vault : Vault) (folder base : string) :
  (forall k, isFile vault (candidate vault folder base k) = true) ->
  forall fuel, resolvePath fuel vault folder base = None.
Proof. apply resolvePath_all_taken. Qed.

Lemma path_loop_never_returns_when_all_taken_witness :
  resolvePath 1000 vaultFull "" "X" = None.
Proof.
  apply (path_loop_never_returns_when_all_taken vaultFull "" "X").
  intros k. reflexivity.
Defined.

(** X24.  When the folder of the settings is missing and cannot be
    created, [createNote] falls back to the root for the suffixed paths
    only: the first path it tries is [/base.md], with a leading slash, and
    the paths after it are [base (n).md]. *)
Theorem folder_creation_failure_paths (vault : Vault) (folder base : string) (n : nat) :
  nonEmpty folder = true ->
  hasEntry vault (trimTrailingSlashes folder) = false ->
  createFolderOk vault (trimTrailingSlashes folder) = false ->
  candidate vault folder base 0 = "/" ++ base ++ ".md"
  /\ candidate vault folder base (S n) = (base ++ " (" ++ natToString (S n) ++ ")") ++ ".md".
Proof.
  intros Hf He Hc. unfold candidate, initialPath. rewrite Hf, He, Hc. split; reflexivity.
Qed.

Lemma folder_creation_failure_paths_witness :
  candidate vaultNoFolder "notes/" "X" 0 = "/X.md"
  /\ candidate vaultNoFolder "notes/" "X" 1 = "X (1).md".
Proof.
  apply (folder_creation_failure_paths vaultNoFolder "notes/" "X" 0); reflexivity.
Defined.

(** X25.  Rewriting the front matter of a rendered note with the record it
    was rendered from, on the same day, gives the note back byte for byte,
    provided the two emitters agree on the record ([ISBN] absent or with a
    non-empty first element, [date-accessed] absent or the stamp of the
    day), the
    fence-delimited span at the top of the note is the block that was
    written (no value holds a fence) and the block holds no dollar sign. *)
Theorem rewrite_round_trip (settings : HappyRefSettings) (currentDate : Date)
        (m : CitationMetadata) (note group1 contentBody : string) :
  createNoteContent settings currentDate m = Ok note ->
  ISBN m = None \/ firstTruthy (ISBN m) = true ->
  truthyStr (date_accessed m) = false \/ date_accessed m = Some (accessedDate currentDate) ->
  frontmatterMatch note = Some (group1, contentBody) ->
  "---" ++ group1 ++ "---" ++ nl ++ nl = createNoteFrontmatter currentDate m ->
  dollarFree (createNoteFrontmatter currentDate m) = true ->
  updateYAMLFrontmatter currentDate note m = note.
Proof. apply updateYAMLFrontmatter_round_trip. Qed.

Lemma rewrite_round_trip_witness :
  updateYAMLFrontmatter clock (noteOf Harvard lecun) lecun = noteOf Harvard lecun.
Proof.
  apply (rewrite_round_trip (settingsWith Harvard) clock lecun (noteOf Harvard lecun)
           sampleBlock (sampleBody harvardText)); try reflexivity; left; reflexivity.
Defined.

Lemma filter_cons_app {A : Type} (f : A -> bool) (x : A) (l : list A) :
  filter f (x :: l) = ((if f x then [x] else []) ++ filter f l)%list.
Proof. simpl. destruct (f x); reflexivity. Qed.

Lemma keys_entryWhen (key : string) (o : option string) :
  map fst (entryWhen key o) = if truthyStr o then [key] else [].
Proof. destruct o as [[|c r]|]; reflexivity. Qed.

Lemma keys_if (c : bool) (e : string * string) :
  map fst (if c then [e] else []) = if c then [fst e] else [].
Proof. destruct c; reflexivity. Qed.

Lemma keys_option {A : Type} (o : option A) (f : A -> string * string) (key : string) :
  (forall v, fst (f v) = key) ->
  map fst (match o with Some v => [f v] | None => [] end) = if isSome o then [key] else [].
Proof. intros H. destruct o; simpl; [now rewrite H | reflexivity]. Qed.

(** X26.  The front matter [createNote] writes is one line [key: value] per
    entry between the fences, and its keys are the twelve known keys in
    their fixed order, each kept or left out by the test the code makes on
    the record: [tags] and [Date Accessed] always, [ISBN] whenever the
    field is present, the others when their value is truthy. *)
Theorem front_matter_keys_in_fixed_order (currentDate : Date) (m : CitationMetadata) :
  createNoteFrontmatter currentDate m
  = "---" ++ nl ++ entryLines (frontmatterEntries currentDate m) ++ "---" ++ nl ++ nl
  /\ frontmatterKeys currentDate m = filter (keyWritten m) knownKeys.
Proof.
  split; [apply createNoteFrontmatter_entries|].
  unfold knownKeys. rewrite !filter_cons_app. cbn [filter].
  unfold keyWritten. cbn [String.eqb Ascii.eqb Bool.eqb].
  unfold frontmatterKeys, frontmatterEntries.
  rewrite !map_app, !keys_entryWhen, !keys_if.
  rewrite (keys_option (firstDateParts m) _ "Publication_Date") by reflexivity.
  rewrite (keys_option (ISBN m) _ "ISBN") by reflexivity.
  reflexivity.
Qed.

(** ** The fetch command *)

(** X27.  The command creates a file exactly when the registry answered
    with an [ok] response that carries a message and [createNote] got as
    far as [vault.create]; the notice is then the success notice. *)
Theorem command_creates_file_exactly_when
        (fuel : nat) (registry : string -> Result Response) (vault : Vault)
        (settings : HappyRefSettings) (currentDate : Date) (doi : string)
        (created : string * string) (notice : string) :
  fetchCommand fuel registry vault settings currentDate doi = Some (Some created, notice)
  <-> (exists response data,
          registry doi = Ok response /\ ok response = true /\ json response = Some data
          /\ createNote fuel vault settings currentDate data = Some (Ok created)
          /\ notice = "Successfully created and opened note").
Proof.
  unfold fetchCommand, fetchCrossrefDataFrom. split.
  - intros H. destruct (registry doi) as [response|e]; cbn [Js.bind] in H; [|discriminate].
    destruct (ok response) eqn:Eok; cbn [negb] in H;
      [|destruct (Z.eqb (status response) 404); discriminate].
    destruct (json response) as [data|] eqn:Ej; [|discriminate].
    destruct (createNote fuel vault settings currentDate data) as [[c|e]|] eqn:Ec;
      try discriminate.
    injection H as <- <-. exists response, data. auto.
  - intros [response [data [Hr [Hok [Hj [Hc ->]]]]]].
    rewrite Hr. cbn [Js.bind]. rewrite Hok. cbn [negb]. now rewrite Hj, Hc.
Qed.

(** X28.  A formatter that throws aborts the creation of the note: for a
    message with the four guarded fields and an empty or absent
    ['date-parts'], and a style other than [None], the command creates no
    file and shows the [TypeError] as an error of fetching, although the
    registry answered and a free path was found. *)
Theorem formatter_failure_aborts_creation
        (fuel : nat) (registry : string -> Result Response) (vault : Vault)
        (settings : HappyRefSettings) (currentDate : Date) (doi : string)
        (response : Response) (data : RegistryMessage) (filePath : string)
        (a : list Author) (d : DateField) (t c : list string) :
  registry doi = Ok response -> ok response = true -> json response = Some data ->
  author (record data) = Some a -> issued (record data) = Some d ->
  title (record data) = Some t -> container_title (record data) = Some c ->
  date_parts d = None \/ date_parts d = Some [] ->
  citationStyle settings <> NoStyle ->
  resolvePath fuel vault (defaultFolder settings)
              (deriveBaseFilename (fileNameStyle settings) data) = Some filePath ->
  fetchCommand fuel registry vault settings currentDate doi
  = Some (None, "Error fetching data: Cannot read properties of undefined (reading '0')").
Proof.
  intros Hr Hok Hj Ha Hd Ht Hc Hp Hs Hpath.
  unfold fetchCommand, fetchCrossrefDataFrom. rewrite Hr. cbn [Js.bind].
  rewrite Hok. cbn [negb]. rewrite Hj. unfold createNote. rewrite Hpath.
  unfold createNoteContent.
  now rewrite (formatter_throws _ _ a d t c Ha Hd Ht Hc Hp Hs).
Qed.

Lemma formatter_failure_aborts_creation_witness :
  fetchCommand 2 brokenRegistry vaultNoFolder (settingsWith Harvard) clock "10.1/x"
  = Some (None, "Error fetching data: Cannot read properties of undefined (reading '0')").
Proof.
  apply (formatter_failure_aborts_creation 2 brokenRegistry vaultNoFolder
           (settingsWith Harvard) clock "10.1/x"
           (mkResponse true 200 (Some (msgOf emptyDateParts))) (msgOf emptyDateParts)
           "Deep Learning.md" [mkAuthor (Some "Yann") (Some "LeCun")] (mkDate (Some []))
           ["Deep Learning"] ["Nature"]); try reflexivity.
  - right; reflexivity.
  - discriminate.
Defined.

(** ** Path helpers of the scratchpad *)

Example parse_examples :
  parse "/one/two/file name" = mkParsedPath "one/two/" "file name"
  /\ parse "" = mkParsedPath "" "Untitled"
  /\ parse "/one/two/" = mkParsedPath "one/two/" "Untitled"
  /\ parse "a//b" = mkParsedPath "" "b"
  /\ subPaths "one/two/three" = ["one"; "one/two"; "one/two/three"].
Proof. repeat split. Qed.

Lemma hasSep_nameGroup (s : string) : hasSep (nameGroup s) = false.
Proof.
  induction s as [|c r IH]; [reflexivity|]. cbn [nameGroup].
  destruct (isSep c || hasSep r) eqn:E; [exact IH | exact E].
Qed.

Lemma dir_name_recompose (s : string) : dirGroup s ++ nameGroup s = s.
Proof.
  induction s as [|c r IH]; [reflexivity|]. cbn [dirGroup nameGroup].
  destruct (isSep c || hasSep r); [simpl; now rewrite IH | reflexivity].
Qed.

Lemma matchedText_suffix (s : string) : exists dropped, s = dropped ++ matchedText s.
Proof.
  induction s as [|c r [dropped IH]]; [now exists ""|]. cbn [matchedText].
  destruct (cleanFrom true (String c r)); [now exists ""|].
  exists (String c dropped). simpl. now rewrite <- IH.
Qed.

Lemma matchedText_clean (s : string) : cleanFrom true (matchedText s) = true.
Proof.
  induction s as [|c r IH]; [reflexivity|]. cbn [matchedText].
  destruct (cleanFrom true (String c r)) eqn:E; [exact E | exact IH].
Qed.

Lemma matchedText_id (s : string) : cleanFrom true s = true -> matchedText s = s.
Proof. destruct s as [|c r]; [reflexivity|]. cbn [matchedText]. now intros ->. Qed.

Lemma startsWithSep_dirGroup (s : string) :
  cleanFrom true s = true -> startsWithSep (dirGroup s) = false.
Proof.
  destruct s as [|c r]; [reflexivity|]. cbn [cleanFrom dirGroup].
  destruct (isSep c) eqn:E; [discriminate|]. intros _.
  cbn [orb]. destruct (hasSep r); [exact E | reflexivity].
Qed.

(** X29.  [path.parse] never fails and gives a name that is not empty
    and holds no separator.  Its directory never begins with a separator:
    the input is some dropped text, then the directory, then the name as
    typed, and nothing is dropped exactly for inputs without a leading
    separator and without two separators in a row. *)
Theorem parse_splits_a_suffix (pathString : string) :
  nonEmpty (name (parse pathString)) = true
  /\ hasSep (name (parse pathString)) = false
  /\ startsWithSep (dir (parse pathString)) = false
  /\ exists dropped typedName,
      pathString = dropped ++ dir (parse pathString) ++ typedName
      /\ name (parse pathString) = orElse typedName "Untitled"
      /\ (cleanFrom true pathString = true -> dropped = "").
Proof.
  unfold parse. cbn [dir name]. repeat split.
  - unfold orElse. destruct (nonEmpty (nameGroup (matchedText pathString))) eqn:E;
      [exact E | reflexivity].
  - unfold orElse. destruct (nonEmpty (nameGroup (matchedText pathString)));
      [apply hasSep_nameGroup | reflexivity].
  - apply startsWithSep_dirGroup, matchedText_clean.
  - destruct (cleanFrom true pathString) eqn:E.
    + exists "", (nameGroup (matchedText pathString)).
      rewrite dir_name_recompose, (matchedText_id _ E). auto.
    + destruct (matchedText_suffix pathString) as [dropped Hd].
      exists dropped, (nameGroup (matchedText pathString)).
      rewrite dir_name_recompose. repeat split; [exact Hd | discriminate].
Qed.

Lemma nth_error_mapiFrom {A B : Type} (f : A -> nat -> B) (l : list A) :
  forall i k, nth_error (mapiFrom i f l) k
              = match nth_error l k with Some x => Some (f x (i + k)) | None => None end.
Proof.
  induction l as [|a l IH]; intros i [|k]; simpl; try reflexivity.
  - now rewrite Nat.add_0_r.
  - rewrite IH. now rewrite Nat.add_succ_r.
Qed.

Lemma join_cons (sep a : string) (l : list string) :
  l <> [] -> join sep (a :: l) = a ++ sep ++ join sep l.
Proof. destruct l; [congruence | reflexivity]. Qed.

Lemma join_firstn_succ (sep : string) :
  forall (k : nat) (l : list string) (part : string),
    nth_error l (S k) = Some part ->
    join sep (firstn (S (S k)) l) = join sep (firstn (S k) l) ++ sep ++ part.
Proof.
  induction k as [|k IH]; intros l part H.
  - destruct l as [|a [|b l']]; simpl in H; try discriminate.
    injection H as <-. reflexivity.
  - destruct l as [|a l1]; [discriminate|]. simpl in H.
    destruct l1 as [|b l2]; [discriminate|].
    rewrite (firstn_cons (S (S k)) a (b :: l2)), (firstn_cons (S k) a (b :: l2)).
    rewrite !join_cons by (rewrite firstn_cons; discriminate).
    rewrite (IH (b :: l2) part H). now rewrite !append_assoc.
Qed.

(** X30.  The directories [createDirectory] walks through come parents
    first: every sub-path after the first is the sub-path before it, a
    slash, and one further part of the path that is not blank. *)
Theorem subPaths_parents_first (normalized : string) (k : nat) (subPath : string) :
  nth_error (subPaths normalized) (S k) = Some subPath ->
  exists parent part,
    nth_error (subPaths normalized) k = Some parent
    /\ subPath = parent ++ "/" ++ part
    /\ nonEmpty (trim part) = true.
Proof.
  unfold subPaths, mapi. rewrite !nth_error_mapiFrom. intros H.
  destruct (nth_error (pathParts normalized) (S k)) as [part|] eqn:E; [|discriminate].
  injection H as <-.
  assert (Hk : nth_error (pathParts normalized) k <> None).
  { apply nth_error_Some. apply (Nat.lt_trans _ (S k)); [lia|].
    apply nth_error_Some. congruence. }
  destruct (nth_error (pathParts normalized) k) as [p|] eqn:Ek; [|congruence].
  exists (join "/" (firstn (k + 1) (pathParts normalized))), part.
  repeat split.
  - cbn [Nat.add]. rewrite !Nat.add_1_r. now apply join_firstn_succ.
  - apply nth_error_In in E. unfold pathParts in E. apply filter_In in E. tauto.
Qed.

Lemma subPaths_parents_first_witness :
  exists parent part,
    nth_error (subPaths "one/two/three") 1 = Some parent
    /\ "one/two/three" = parent ++ "/" ++ part
    /\ nonEmpty (trim part) = true.
Proof.
  apply (subPaths_parents_first "one/two/three" 1 "one/two/three"). reflexivity.
Defined.
